(** * The capability plugin system and its self-reflective control loop

    A shallow embedding of the Python sources under
    [ai_self_enhancement/src]: [data_persistence.py],
    [capability_loader.py], [capability_registry.py],
    [self_reflection.py] and [ai_core.py].

    Python objects that the code passes around untyped (JSON snapshots,
    capability results) are values of one inductive type; dictionaries are
    association lists in insertion order, as Python's [dict] iterates; a
    function that can raise returns a [result]; a method that mutates its
    object and can still raise returns the new state together with a
    [result], so that what a failed call leaves behind stays visible. *)

From Stdlib Require Import ZArith List String Ascii Bool Floats Lia Permutation.
Import ListNotations.
Open Scope string_scope.
Set Warnings "-register-all,-inexact-float".

(** ** Python values, exceptions, dictionaries and strings *)

Module Py.

(** The exception classes the modelled code raises or catches.
    [LoaderCapabilityError] is the class [CapabilityError] that
    [capability_loader.py] declares for itself; [CapabilityError] is the one
    of [error_handling.py], which the registry imports. Both derive from
    [Exception]. [UserError] stands for whatever a capability or a handler
    of its own raises. *)
Inductive exn : Type :=
| AttributeError
| KeyError
| TypeError
| OSError
| LoaderCapabilityError
| CapabilityError
| DataPersistenceError
| SelfReflectionError
| UserError (tag : string).

Inductive result (A : Type) : Type :=
| Ok (a : A)
| Raise (e : exn).
Arguments Ok {A} a.
Arguments Raise {A} e.

Definition bind {A B : Type} (r : result A) (k : A -> result B) : result B :=
  match r with
  | Ok a => k a
  | Raise e => Raise e
  end.

Notation "x <- r ;; k" := (bind r (fun x => k))
  (at level 61, r at next level, right associativity).

Definition is_ok {A : Type} (r : result A) : bool :=
  match r with Ok _ => true | Raise _ => false end.

(** [try: body except Exception as e: raise E(...) from e] *)
Definition reraise_as {A : Type} (e : exn) (r : result A) : result A :=
  match r with
  | Ok a => Ok a
  | Raise _ => Raise e
  end.

(** Objects as [json.load] builds them and as capabilities return them. *)
Inductive value : Type :=
| VNone
| VBool (b : bool)
| VInt (z : Z)
| VFloat (f : float)
| VStr (s : string)
| VList (l : list value)
| VDict (d : list (string * value)).

(** *** [dict], in insertion order *)

Section Dict.
Context {V : Type}.

Definition dict : Type := list (string * V).

Fixpoint dict_get (k : string) (d : dict) : option V :=
  match d with
  | [] => None
  | (k', v) :: d' => if String.eqb k k' then Some v else dict_get k d'
  end.

Definition dict_mem (k : string) (d : dict) : bool :=
  match dict_get k d with Some _ => true | None => false end.

(** [d[k] = v]: an existing key keeps its place, a new key goes last. *)
Fixpoint dict_set (k : string) (v : V) (d : dict) : dict :=
  match d with
  | [] => [(k, v)]
  | (k', v') :: d' =>
      if String.eqb k k' then (k, v) :: d' else (k', v') :: dict_set k v d'
  end.

(** [del d[k]], used only under [k in d]. *)
Fixpoint dict_del (k : string) (d : dict) : dict :=
  match d with
  | [] => []
  | (k', v') :: d' =>
      if String.eqb k k' then d' else (k', v') :: dict_del k d'
  end.

Definition dict_keys (d : dict) : list string := map fst d.
End Dict.
Arguments dict V : clear implicits.

(** [obj.get(key, default)]: only a [dict] has the method. *)
Definition get (obj : value) (key : string) (default : value) : result value :=
  match obj with
  | VDict d =>
      Ok (match dict_get key d with
          | Some v => v
          | None => default
          end)
  | _ => Raise AttributeError
  end.

(** [obj[key]] with a [str] key: [KeyError] on a [dict] without the key,
    [TypeError] on an object that a string does not index. *)
Definition subscript (obj : value) (key : string) : result value :=
  match obj with
  | VDict d =>
      match dict_get key d with
      | Some v => Ok v
      | None => Raise KeyError
      end
  | _ => Raise TypeError
  end.

(** [obj == s] for a [str] literal [s]. *)
Definition eq_str (obj : value) (s : string) : bool :=
  match obj with
  | VStr s' => String.eqb s' s
  | _ => false
  end.

(** [float(z)], exact below 2^53. *)
Definition float_of_Z (z : Z) : float :=
  match z with
  | Z0 => 0%float
  | Zpos _ => PrimFloat.of_uint63 (Uint63.of_Z z)
  | Zneg p => PrimFloat.opp (PrimFloat.of_uint63 (Uint63.of_Z (Zpos p)))
  end.

(** [bool(obj)] *)
Definition truthy (obj : value) : bool :=
  match obj with
  | VNone => false
  | VBool b => b
  | VInt z => negb (z =? 0)%Z
  | VFloat f => negb (PrimFloat.eqb f 0%float)
  | VStr s => negb (String.eqb s "")
  | VList l => match l with [] => false | _ => true end
  | VDict d => match d with [] => false | _ => true end
  end.

(** [iter(obj)]: a list yields its elements, a string its characters, a
    dictionary its keys; nothing else of [value] is iterable. *)
Definition iter (obj : value) : result (list value) :=
  match obj with
  | VList l => Ok l
  | VStr s => Ok (map (fun c => VStr (String c EmptyString)) (list_ascii_of_string s))
  | VDict d => Ok (map (fun kv => VStr (fst kv)) d)
  | _ => Raise TypeError
  end.

(** [obj > x] for a [float] literal [x]: numbers compare, the rest raise. *)
Definition gt_float (obj : value) (x : float) : result bool :=
  match obj with
  | VBool b => Ok (PrimFloat.ltb x (if b then 1%float else 0%float))
  | VInt z => Ok (PrimFloat.ltb x (float_of_Z z))
  | VFloat f => Ok (PrimFloat.ltb x f)
  | _ => Raise TypeError
  end.

(** [a + b] on numbers, as [sum] needs it. *)
Definition py_add (a b : value) : result value :=
  let int_of (b : bool) := if b then 1%Z else 0%Z in
  match a, b with
  | VInt x, VInt y => Ok (VInt (x + y))
  | VInt x, VBool y => Ok (VInt (x + int_of y))
  | VBool x, VInt y => Ok (VInt (int_of x + y))
  | VBool x, VBool y => Ok (VInt (int_of x + int_of y))
  | VFloat x, VFloat y => Ok (VFloat (PrimFloat.add x y))
  | VFloat x, VInt y => Ok (VFloat (PrimFloat.add x (float_of_Z y)))
  | VInt x, VFloat y => Ok (VFloat (PrimFloat.add (float_of_Z x) y))
  | VFloat x, VBool y => Ok (VFloat (PrimFloat.add x (float_of_Z (int_of y))))
  | VBool x, VFloat y => Ok (VFloat (PrimFloat.add (float_of_Z (int_of x)) y))
  | _, _ => Raise TypeError
  end.

(** [sum(items)], from the integer 0. *)
Definition py_sum (items : list value) : result value :=
  fold_left (fun acc item => a <- acc ;; py_add a item) items (Ok (VInt 0)).

(** Python binds the arguments of a call to the parameters of the callee
    before the body runs. For a callee whose parameters (after [self]) are
    [params], none with a default, a call with [positional] positional
    arguments and the keyword arguments [keywords] raises [TypeError]
    unless the positional ones fit, every keyword names one of the
    remaining parameters, and every remaining parameter is given. *)
Definition bind_call (params : list string) (positional : nat)
    (keywords : list string) : result unit :=
  let remaining := skipn positional params in
  if ((positional <=? List.length params)%nat
      && forallb (fun k => existsb (String.eqb k) remaining) keywords
      && forallb (fun p => existsb (String.eqb p) keywords) remaining)%bool
  then Ok tt
  else Raise TypeError.

(** *** [str] methods; a character is a code point below 256 *)

Definition startswith (s p : string) : bool := String.prefix p s.

Fixpoint endswith (s suffix : string) : bool :=
  if String.eqb s suffix then true
  else match s with
       | EmptyString => false
       | String _ s' => endswith s' suffix
       end.

(** [sub in s] on strings *)
Fixpoint contains (sub s : string) : bool :=
  if String.prefix sub s then true
  else match s with
       | EmptyString => false
       | String _ s' => contains sub s'
       end.

(** [needle in obj] for a [str] literal [needle]: a substring of a string,
    an element of a list, a key of a dictionary. *)
Definition str_in (needle : string) (obj : value) : result bool :=
  match obj with
  | VStr s => Ok (contains needle s)
  | VList l => Ok (existsb (fun x => eq_str x needle) l)
  | VDict d => Ok (dict_mem needle d)
  | _ => Raise TypeError
  end.

(** [str.isspace] on one code point: TAB..CR, FS..US, space, NEL, NBSP. *)
Definition isspace (c : ascii) : bool :=
  let n := nat_of_ascii c in
  (((9 <=? n) && (n <=? 13)) || ((28 <=? n) && (n <=? 32))
   || (n =? 133) || (n =? 160))%nat.

Fixpoint lstrip (s : string) : string :=
  match s with
  | EmptyString => EmptyString
  | String c s' => if isspace c then lstrip s' else s
  end.

Fixpoint rstrip (s : string) : string :=
  match s with
  | EmptyString => EmptyString
  | String c s' =>
      match rstrip s' with
      | EmptyString => if isspace c then EmptyString else String c EmptyString
      | r => String c r
      end
  end.

Definition strip (s : string) : string := rstrip (lstrip s).

(** Truth value of a [str]: [not s] holds of the empty string only. *)
Definition str_not (s : string) : bool :=
  match s with EmptyString => true | String _ _ => false end.

(** [s[:-n]] for [n > 0] *)
Definition drop_last (n : nat) (s : string) : string :=
  String.substring 0 (String.length s - n) s.

End Py.
Import Py.

(** ** [data_persistence.py] *)

Module DataPersistence.

Definition DATA_VERSION : string := "1.0".

(** The data directory, as [os.listdir] enumerates it: file name and what
    [json.load] makes of the file, [None] when it cannot be read or
    parsed. The order of the list is the order of the listing. *)
Definition directory : Type := list (string * option value).

(** What the operating system makes of one attempt to write a file.
    [Written]: the file holds the content. [Refused]: [os.makedirs] or
    [open] raised and the directory is as it was. [Torn]: [open] went
    through and the write raised, so the file is there, cut short, and
    [json.load] will not parse it. *)
Inductive write_outcome : Type :=
| Written
| Refused
| Torn.

(** One attempt: its outcome and, for a name new to the directory, the
    place at which the listing shows the new file. [os.listdir] lists in
    an order of the system's choosing, which the code never sorts. *)
Record attempt : Type := mkAttempt {
  outcome : write_outcome;
  place : nat
}.

Fixpoint insert_at (place : nat) (entry : string * option value)
    (fs : directory) : directory :=
  match place, fs with
  | S p, x :: fs' => x :: insert_at p entry fs'
  | _, _ => entry :: fs
  end.

Fixpoint replace_file (name : string) (content : option value)
    (fs : directory) : directory :=
  match fs with
  | [] => []
  | (n, c) :: fs' =>
      if String.eqb name n then (n, content) :: fs'
      else (n, c) :: replace_file name content fs'
  end.

(** The directory once the file [name] holds [content]: an existing file
    keeps its place in the listing, a new one appears at [place]. *)
Definition put_file (place : nat) (name : string) (content : option value)
    (fs : directory) : directory :=
  if existsb (String.eqb name) (map fst fs)
  then replace_file name content fs
  else insert_at place (name, content) fs.

(** [open(filepath, 'w')] followed by a completed [json.dump]. *)
Definition write_file (place : nat) (name : string) (content : value)
    (fs : directory) : directory :=
  put_file place name (Some content) fs.

(** [ensure_data_directory()] and
    [with open(filepath, 'w') as f: json.dump(content, f)] under the given
    attempt: the directory afterwards and how the statements end. *)
Definition write_attempt (a : attempt) (name : string) (content : value)
    (fs : directory) : directory * result unit :=
  match outcome a with
  | Written => (write_file (place a) name content fs, Ok tt)
  | Refused => (fs, Raise OSError)
  | Torn => (put_file (place a) name None fs, Raise OSError)
  end.

(** [data.get("version") == DATA_VERSION] *)
Definition is_compatible_version (data : value) : result bool :=
  version <- get data "version" VNone ;;
  Ok (eq_str version DATA_VERSION).

(** [os.makedirs(DATA_DIR, exist_ok=True)]; [disk_ok] says whether the
    operating system grants the access. *)
Definition ensure_data_directory (disk_ok : bool) : result unit :=
  if disk_ok then Ok tt else Raise DataPersistenceError.

Definition performance_file (filename : string) : bool :=
  startswith filename "performance_" && endswith filename ".json".

Definition snapshot (performance_data : value) : value :=
  VDict [("version", VStr DATA_VERSION); ("performance_data", performance_data)].

(** [stamp] is [datetime.now().strftime('%Y%m%d_%H%M%S')]. Returns the
    directory afterwards, also when the call raises. [debug_mode] is off,
    as in every call of the registry. *)
Definition save_performance_data (a : attempt) (stamp : string)
    (performance_data : value) (fs : directory) : directory * result unit :=
  let (fs', written) :=
    write_attempt a ("performance_" ++ stamp ++ ".json")
                  (snapshot performance_data) fs in
  (fs', reraise_as DataPersistenceError written).

(** The [for filename in os.listdir(DATA_DIR)] loop of
    [load_performance_data], over the files still to visit;
    [performance_data] is the list built so far. *)
Fixpoint load_performance_files (fs : directory) (performance_data : list value)
  : result (list value) :=
  match fs with
  | [] => Ok performance_data
  | (filename, content) :: fs' =>
      if performance_file filename then
        match content with
        | None => Raise OSError
        | Some data =>
            compatible <- is_compatible_version data ;;
            if compatible then
              entry <- get data "performance_data" (VDict []) ;;
              load_performance_files fs' (performance_data ++ [entry])%list
            else load_performance_files fs' performance_data
        end
      else load_performance_files fs' performance_data
  end.

Definition load_performance_data (disk_ok : bool) (fs : directory)
  : result (list value) :=
  reraise_as DataPersistenceError
    (_ <- ensure_data_directory disk_ok ;;
     load_performance_files fs []).

End DataPersistence.

(** ** [capability_loader.py] *)

Module CapabilityLoader.

(** A callable object, by identity. *)
Definition handle : Type := nat.

(** What [getattr(module, item_name)] finds. *)
Inductive attribute : Type :=
| Callable (h : handle)
| Data (v : value).

Definition callable (item : attribute) : bool :=
  match item with Callable _ => true | Data _ => false end.

(** An executed module: the names [dir(module)] lists, each with its
    object. *)
Definition namespace : Type := list (string * attribute).

(** [f"{module_name}.{item_name}"] *)
Definition capability_name (module_name item_name : string) : string :=
  module_name ++ "." ++ item_name.

(** The [for item_name in dir(module)] loop. *)
Fixpoint register_items (module_name : string) (items : namespace)
    (capabilities : dict handle) : dict handle :=
  match items with
  | [] => capabilities
  | (item_name, item) :: items' =>
      register_items module_name items'
        (match item with
         | Callable h =>
             if negb (startswith item_name "__")
             then dict_set (capability_name module_name item_name) h capabilities
             else capabilities
         | Data _ => capabilities
         end)
  end.

(** [module] is [None] when the file cannot be imported: any exception of
    the [try] block becomes the loader's [CapabilityError]. *)
Definition load_capability_module (module_name : string)
    (module : option namespace) (capabilities : dict handle)
  : result (dict handle) :=
  match module with
  | None => Raise LoaderCapabilityError
  | Some items => Ok (register_items module_name items capabilities)
  end.

(** The [for filename in os.listdir(self.capability_dir)] loop. *)
Fixpoint load_files (files : list (string * option namespace))
    (capabilities : dict handle) : result (dict handle) :=
  match files with
  | [] => Ok capabilities
  | (filename, module) :: files' =>
      if endswith filename ".py" && negb (startswith filename "__") then
        capabilities' <-
          load_capability_module (drop_last 3 filename) module capabilities ;;
        load_files files' capabilities'
      else load_files files' capabilities
  end.

(** [capability_dir] is [None] when [os.listdir] fails. *)
Definition load_capabilities
    (capability_dir : option (list (string * option namespace)))
    (capabilities : dict handle) : result (dict handle) :=
  reraise_as LoaderCapabilityError
    (match capability_dir with
     | None => Raise OSError
     | Some files => load_files files capabilities
     end).

Definition get_capability (capabilities : dict handle)
    (capability_name : string) : result handle :=
  match dict_get capability_name capabilities with
  | Some h => Ok h
  | None => Raise LoaderCapabilityError
  end.

(** The handle that the loop over [dir(module)] leaves under the name of
    [item_name]: the last callable listed under it that does not start
    with two underscores. *)
Fixpoint registered (items : namespace) (item_name : string)
  : option handle :=
  match items with
  | [] => None
  | (n, item) :: items' =>
      match registered items' item_name with
      | Some h => Some h
      | None =>
          match item with
          | Callable h =>
              if String.eqb n item_name && negb (startswith n "__")
              then Some h else None
          | Data _ => None
          end
      end
  end.

End CapabilityLoader.

(** ** [capability_registry.py] *)

Module CapabilityRegistry.

Import DataPersistence.

Record capability : Type := mkCapability {
  description : value;
  function : CapabilityLoader.handle
}.

(** The registry object together with the data directory it persists to.
    [capability_loader] is the loader's [capabilities] dictionary. *)
Record registry : Type := mkRegistry {
  capability_loader : dict CapabilityLoader.handle;
  capabilities : dict capability;
  data_dir : directory
}.

Definition with_capabilities (c : dict capability) (r : registry) : registry :=
  mkRegistry (capability_loader r) c (data_dir r).

Definition with_data_dir (fs : directory) (r : registry) : registry :=
  mkRegistry (capability_loader r) (capabilities r) fs.

(** What the outside world answers to one persistence write: what becomes
    of the attempt, and the clock reading that names the file. *)
Record disk : Type := mkDisk {
  write : attempt;
  stamp : string
}.

(** The disk takes the write. *)
Definition disk_ok (d : disk) : bool :=
  match outcome (write d) with
  | Written => true
  | _ => false
  end.

(** [self.capability_loader.get_capability(name)] for a [name] read from a
    snapshot: only a string can be a key of the loader's dictionary; a list
    or a dictionary is not hashable. *)
Definition loader_lookup (loader : dict CapabilityLoader.handle) (name : value)
  : result CapabilityLoader.handle :=
  match name with
  | VStr s => CapabilityLoader.get_capability loader s
  | VList _ | VDict _ => Raise TypeError
  | _ => Raise LoaderCapabilityError
  end.

(** The [for entry in stored_data] loop of [_load_capabilities]. *)
Fixpoint load_entries (loader : dict CapabilityLoader.handle)
    (stored_data : list value) (caps : dict capability)
  : result (dict capability) :=
  match stored_data with
  | [] => Ok caps
  | entry :: rest =>
      type <- get entry "type" VNone ;;
      if eq_str type "capability" then
        name <- subscript entry "name" ;;
        description <- subscript entry "description" ;;
        function <- loader_lookup loader name ;;
        match name with
        | VStr s =>
            load_entries loader rest
              (dict_set s (mkCapability description function) caps)
        | _ => Raise TypeError
        end
      else load_entries loader rest caps
  end.

Definition _load_capabilities (readable : bool)
    (loader : dict CapabilityLoader.handle) (fs : directory)
    (caps : dict capability) : result (dict capability) :=
  stored_data <- load_performance_data readable fs ;;
  load_entries loader stored_data caps.

(** [CapabilityRegistry(capability_dir)], given what the loader found. *)
Definition init (readable : bool) (loader : dict CapabilityLoader.handle)
    (fs : directory) : result registry :=
  caps <- _load_capabilities readable loader fs [] ;;
  Ok (mkRegistry loader caps fs).

Definition record_of (entry : string * capability) : value :=
  VDict [("type", VStr "capability");
         ("name", VStr (fst entry));
         ("description", description (snd entry))].

Definition _save_capabilities (d : disk) (r : registry)
  : registry * result unit :=
  let data_to_save := VList (map record_of (capabilities r)) in
  let (fs, saved) :=
    save_performance_data (write d) (stamp d) data_to_save (data_dir r) in
  (with_data_dir fs r, saved).

(** The [try] block of [add_capability]; [name] and [description] are
    strings, and a function object is true. *)
Definition add_capability_try (d : disk) (name description : string)
    (r : registry) : registry * result unit :=
  if str_not (strip name) then (r, Raise CapabilityError)
  else if dict_mem name (capabilities r) then (r, Raise CapabilityError)
  else
    match CapabilityLoader.get_capability (capability_loader r) name with
    | Raise e => (r, Raise e)
    | Ok function =>
        _save_capabilities d
          (with_capabilities
             (dict_set name (mkCapability (VStr description) function)
                (capabilities r)) r)
    end.

Definition add_capability (d : disk) (name description : string)
    (r : registry) : registry * result unit :=
  let (r', outcome) := add_capability_try d name description r in
  (r', reraise_as CapabilityError outcome).

Definition get_capability (name : string) (r : registry) : result capability :=
  reraise_as CapabilityError
    (match dict_get name (capabilities r) with
     | None => Raise CapabilityError
     | Some c => Ok c
     end).

(** The dictionary comprehension builds a new [dict] key by key. *)
Definition list_capabilities (r : registry) : dict value :=
  fold_left (fun acc entry => dict_set (fst entry) (description (snd entry)) acc)
            (capabilities r) [].

Definition remove_capability_try (d : disk) (name : string) (r : registry)
  : registry * result bool :=
  if dict_mem name (capabilities r) then
    let (r', saved) :=
      _save_capabilities d
        (with_capabilities (dict_del name (capabilities r)) r) in
    (r', _ <- saved ;; Ok true)
  else (r, Ok false).

Definition remove_capability (d : disk) (name : string) (r : registry)
  : registry * result bool :=
  let (r', outcome) := remove_capability_try d name r in
  (r', reraise_as CapabilityError outcome).

(** [invoke h] is what calling the object [h] without arguments does:
    return a value or raise. *)
Definition execute_capability
    (invoke : CapabilityLoader.handle -> result value)
    (name : string) (r : registry) : result value :=
  reraise_as CapabilityError
    (c <- get_capability name r ;;
     invoke (function c)).

End CapabilityRegistry.

(** ** [self_reflection.py] *)

Module SelfReflection.

(** One entry of [performance_logs]. A timestamp is the second it names. *)
Record log_entry : Type := mkLogEntry {
  timestamp : Z;
  task_name : string;
  task_result : value;
  execution_time : float
}.

(** One entry of [project_management_logs], with the keys the analysis
    reads; a key the entry lacks is [None]. *)
Record project_log : Type := mkProjectLog {
  action : option string;
  priority : option string;
  log_timestamp : option Z;
  tokens_used : option Z
}.

Record reflection : Type := mkReflection {
  performance_logs : list log_entry;
  project_management_logs : list project_log
}.

(** [SelfReflection.__init__(self, capability_registry)] *)
Definition init_params : list string := ["capability_registry"].

Definition init : reflection := mkReflection [] [].

(** [log_performance(self, task_name, result, execution_time)] *)
Definition log_performance_params : list string :=
  ["task_name"; "result"; "execution_time"].

(** [now] is the value of [get_timestamp()]. *)
Definition log_performance (now : Z) (task_name : string) (result : value)
    (execution_time : float) (s : reflection) : reflection :=
  mkReflection
    (performance_logs s ++ [mkLogEntry now task_name result execution_time])%list
    (project_management_logs s).

Definition log_project_management_performance (project_logs : list project_log)
    (s : reflection) : reflection :=
  mkReflection (performance_logs s)
               (project_management_logs s ++ project_logs)%list.

(** The dictionary [analyze_performance] returns: either the message alone
    or the three statistics. *)
Record performance_analysis : Type := mkPerformanceAnalysis {
  message : option string;
  total_tasks : option nat;
  total_execution_time : option float;
  average_execution_time : option float
}.

Definition analyze_performance (s : reflection) : performance_analysis :=
  match performance_logs s with
  | [] => mkPerformanceAnalysis (Some "No performance data available.")
                                None None None
  | logs =>
      let total_tasks := List.length logs in
      let total_execution_time :=
        fold_left (fun acc log => PrimFloat.add acc (execution_time log))
                  logs 0%float in
      let avg_execution_time :=
        PrimFloat.div total_execution_time (float_of_Z (Z.of_nat total_tasks)) in
      mkPerformanceAnalysis None (Some total_tasks)
        (Some total_execution_time) (Some avg_execution_time)
  end.

Record project_analysis : Type := mkProjectAnalysis {
  pm_message : option string;
  pm_total_tasks : option nat;
  completed_tasks : option nat;
  completion_rate : option float;
  priority_distribution : option (dict nat);
  progress_over_time : option (list (Z * float));
  token_usage_over_time : option (list (Z * Z));
  total_tokens_used : option Z
}.

Definition is_complete_task (log : project_log) : bool :=
  match action log with
  | Some a => String.eqb a "complete_task"
  | None => false
  end.

(** The [for log in self.project_management_logs] loop; the accumulator is
    (priority_distribution, progress_over_time, token_usage_over_time,
    total_tokens_used). *)
Fixpoint analyze_project_logs (progress : float) (logs : list project_log)
    (acc : dict nat * list (Z * float) * list (Z * Z) * Z)
  : result (dict nat * list (Z * float) * list (Z * Z) * Z) :=
  match logs with
  | [] => Ok acc
  | log :: logs' =>
      let '(distribution, progress_over_time, token_usage, total_tokens) := acc in
      let priority :=
        match priority log with Some p => p | None => "Medium" end in
      match dict_get priority distribution with
      | None => Raise KeyError
      | Some count =>
          match log_timestamp log with
          | None => Raise KeyError
          | Some t =>
              let tokens :=
                match tokens_used log with Some n => n | None => 0%Z end in
              analyze_project_logs progress logs'
                (dict_set priority (S count) distribution,
                 (progress_over_time ++ [(t, progress)])%list,
                 (token_usage ++ [(t, tokens)])%list,
                 (total_tokens + tokens)%Z)
          end
      end
  end.

Definition analyze_project_management_performance (s : reflection)
  : result project_analysis :=
  match project_management_logs s with
  | [] =>
      Ok (mkProjectAnalysis (Some "No project management data available.")
                            None None None None None None None)
  | logs =>
      let total_tasks := List.length logs in
      let completed_tasks := List.length (filter is_complete_task logs) in
      let rate :=
        PrimFloat.div (float_of_Z (Z.of_nat completed_tasks))
                      (float_of_Z (Z.of_nat total_tasks)) in
      acc <- analyze_project_logs (PrimFloat.mul rate 100%float) logs
               ([("High", 0%nat); ("Medium", 0%nat); ("Low", 0%nat)], [], [], 0%Z) ;;
      let '(distribution, progress_over_time, token_usage, total_tokens) := acc in
      Ok (mkProjectAnalysis None (Some total_tasks) (Some completed_tasks)
            (Some rate) (Some distribution) (Some progress_over_time)
            (Some token_usage) (Some total_tokens))
  end.

(** [d.get(key, 0)] on a numeric entry. *)
Definition get_float (field : option float) : float :=
  match field with Some x => x | None => 0%float end.

Definition get_int (field : option Z) : Z :=
  match field with Some x => x | None => 0%Z end.

Definition suggest_improvements (s : reflection) : result (list string) :=
  let performance_analysis := analyze_performance s in
  project_management_analysis <- analyze_project_management_performance s ;;
  let suggestions := [] in
  let suggestions :=
    if PrimFloat.ltb 1%float
         (get_float (average_execution_time performance_analysis))
    then (suggestions ++
            ["Consider optimizing task execution for better performance."])%list
    else suggestions in
  let suggestions :=
    if PrimFloat.ltb (get_float (completion_rate project_management_analysis))
                     0.8%float
    then (suggestions ++
            ["Improve task completion rate in project management."])%list
    else suggestions in
  let suggestions :=
    if (10000 <? get_int (total_tokens_used project_management_analysis))%Z
    then (suggestions ++
            ["Look into reducing token usage for more efficient operations."])%list
    else suggestions in
  Ok suggestions.

End SelfReflection.

(** ** [ai_core.py] *)

Module AICore.

Import CapabilityRegistry.

(** The dictionary [execute_capability] returns. *)
Record task_result : Type := mkTaskResult {
  result_value : value;
  elapsed : float;
  category : string
}.

Record core : Type := mkCore {
  capability_registry : registry;
  self_reflection : SelfReflection.reflection;
  running : bool;
  performance_data : dict (list task_result);
  clock_reads : nat
}.

Definition with_reflection (s : SelfReflection.reflection) (c : core) : core :=
  mkCore (capability_registry c) s (running c) (performance_data c)
         (clock_reads c).

Definition with_running (b : bool) (c : core) : core :=
  mkCore (capability_registry c) (self_reflection c) b (performance_data c)
         (clock_reads c).

Definition with_performance_data (d : dict (list task_result)) (c : core)
  : core :=
  mkCore (capability_registry c) (self_reflection c) (running c) d
         (clock_reads c).

(** [AICore.__init__] builds its reflection with
    [SelfReflection(self.capability_registry, debug_mode)]: two positional
    arguments. *)
Definition init (r : registry) : result core :=
  _ <- bind_call SelfReflection.init_params 2 [] ;;
  Ok (mkCore r SelfReflection.init false [] 0).

(** The handlers [act_on_insights] can invoke, each with its arguments. *)
Inductive call : Type :=
| address_decreasing_performance (trend : value)
| address_anomalies (performance_summary anomalies : value)
| optimize_slow_tasks (improvement : value)
| improve_capability_reliability (improvement : value)
| consider_new_capabilities (improvement : value).

(** The bodies of the five handlers as the source has them: each logs one
    line; [address_decreasing_performance] reads [trend.get('slope', 'N/A')]
    and [address_anomalies] computes [sum(anomalies)]. *)
Definition handler (c : call) : result unit :=
  match c with
  | address_decreasing_performance trend =>
      _ <- get trend "slope" (VStr "N/A") ;; Ok tt
  | address_anomalies _ anomalies =>
      items <- iter anomalies ;;
      _ <- py_sum items ;; Ok tt
  | optimize_slow_tasks _ => Ok tt
  | improve_capability_reliability _ => Ok tt
  | consider_new_capabilities _ => Ok tt
  end.

Section World.

(** What calling a capability without arguments does. *)
Variable invoke : CapabilityLoader.handle -> result value.

(** The value of the n-th call of [get_timestamp()], in seconds. *)
Variable clock : nat -> Z.

(** The handlers bound to the object: [handler], unless a subclass or a
    test replaces them. *)
Variable handlers : call -> result unit.

Definition get_timestamp (c : core) : Z * core :=
  (clock (clock_reads c),
   mkCore (capability_registry c) (self_reflection c) (running c)
          (performance_data c) (S (clock_reads c))).

(** [(end - start).total_seconds()] *)
Definition get_time_difference (start_time end_time : Z) : float :=
  float_of_Z (end_time - start_time).

Definition execute_capability (capability_name : string) (c : core)
  : task_result * core :=
  let (start_time, c) := get_timestamp c in
  let result :=
    match CapabilityRegistry.execute_capability invoke capability_name
            (capability_registry c) with
    | Ok v => v
    | Raise _ => VNone
    end in
  let (end_time, c) := get_timestamp c in
  (mkTaskResult result (get_time_difference start_time end_time)
                "capability_execution", c).

Definition update_performance_data (capability : string) (t : task_result)
    (c : core) : core :=
  let d :=
    if dict_mem capability (performance_data c) then performance_data c
    else dict_set capability [] (performance_data c) in
  with_performance_data
    (match dict_get capability d with
     | Some l => dict_set capability (l ++ [t])%list d
     | None => d
     end) c.

(** One turn of the [for capability_name, description in ...] loop. The
    call of [log_performance] passes three positional arguments and the
    keyword [category]; an exception anywhere in the [try] block ends the
    turn. *)
Definition execute_task_turn (capability_name : string) (c : core) : core :=
  let (t, c) := execute_capability capability_name c in
  match bind_call SelfReflection.log_performance_params 3 ["category"] with
  | Raise _ => c
  | Ok _ =>
      let (now, c) := get_timestamp c in
      update_performance_data capability_name t
        (with_reflection
           (SelfReflection.log_performance now capability_name
              (result_value t) (elapsed t) (self_reflection c)) c)
  end.

Definition execute_task_cycle (c : core) : core :=
  let capabilities := list_capabilities (capability_registry c) in
  fold_left (fun c entry => execute_task_turn (fst entry) c) capabilities c.

(** Runs [first], then [second] unless [first] raised; the calls made are
    kept in order. *)
Definition and_then (first second : list call * result unit)
  : list call * result unit :=
  match first with
  | (calls, Ok _) => ((calls ++ fst second)%list, snd second)
  | (calls, Raise e) => (calls, Raise e)
  end.

Definition invoke_handler (c : call) : list call * result unit :=
  ([c], handlers c).

(** [if trend.get('trend_direction') == 'decreasing' and
    trend.get('trend_strength', 0) > 0.5] *)
Definition handle_trend (analysis : value) : list call * result unit :=
  match (trend <- get analysis "trend_analysis" (VDict []) ;;
         direction <- get trend "trend_direction" VNone ;;
         if eq_str direction "decreasing" then
           strength <- get trend "trend_strength" (VInt 0) ;;
           strong <- gt_float strength 0.5%float ;;
           Ok (if strong then Some trend else None)
         else Ok None) with
  | Raise e => ([], Raise e)
  | Ok None => ([], Ok tt)
  | Ok (Some trend) => invoke_handler (address_decreasing_performance trend)
  end.

(** [if any(anomalies)] *)
Definition handle_anomalies (analysis : value) : list call * result unit :=
  match (anomalies <- get analysis "anomalies" (VList []) ;;
         items <- iter anomalies ;;
         if existsb truthy items then
           summary <- get analysis "performance_summary" (VDict []) ;;
           Ok (Some (summary, anomalies))
         else Ok None) with
  | Raise e => ([], Raise e)
  | Ok None => ([], Ok tt)
  | Ok (Some (summary, anomalies)) =>
      invoke_handler (address_anomalies summary anomalies)
  end.

(** The [try] block for one improvement. *)
Definition handle_improvement_try (improvement : value)
  : list call * result unit :=
  match str_in "Optimize performance for tasks" improvement with
  | Raise e => ([], Raise e)
  | Ok true => invoke_handler (optimize_slow_tasks improvement)
  | Ok false =>
      match str_in "Improve reliability of capabilities" improvement with
      | Raise e => ([], Raise e)
      | Ok true => invoke_handler (improve_capability_reliability improvement)
      | Ok false =>
          match str_in "Consider adding new capabilities" improvement with
          | Raise e => ([], Raise e)
          | Ok true => invoke_handler (consider_new_capabilities improvement)
          | Ok false => ([], Ok tt)
          end
      end
  end.

(** [try: ... except Exception as e: log_error(...)] *)
Definition handle_improvement (improvement : value)
  : list call * result unit :=
  (fst (handle_improvement_try improvement), Ok tt).

Fixpoint handle_improvements (improvements : list value)
  : list call * result unit :=
  match improvements with
  | [] => ([], Ok tt)
  | improvement :: rest =>
      and_then (handle_improvement improvement) (handle_improvements rest)
  end.

(** The handlers invoked, in order, and how the method ends. *)
Definition act_on_insights (analysis : value) : list call * result unit :=
  and_then (handle_trend analysis)
    (and_then (handle_anomalies analysis)
       (match (areas <- get analysis "areas_for_improvement" (VList []) ;;
               iter areas) with
        | Raise e => ([], Raise e)
        | Ok improvements => handle_improvements improvements
        end)).

(** The analysis of [self_reflection.py] as the dictionary it is. *)
Definition analysis_dict (a : SelfReflection.performance_analysis) : value :=
  VDict
    ((match SelfReflection.message a with
      | Some m => [("message", VStr m)] | None => [] end)
     ++ (match SelfReflection.total_tasks a with
         | Some n => [("total_tasks", VInt (Z.of_nat n))] | None => [] end)
     ++ (match SelfReflection.total_execution_time a with
         | Some x => [("total_execution_time", VFloat x)] | None => [] end)
     ++ (match SelfReflection.average_execution_time a with
         | Some x => [("average_execution_time", VFloat x)] | None => [] end))%list.

(** Everything happens inside [try: ... except Exception]; the handlers
    called are returned as the trace of the pass. *)
Definition perform_self_reflection (c : core) : list call * core :=
  let analysis := SelfReflection.analyze_performance (self_reflection c) in
  (fst (act_on_insights (analysis_dict analysis)), c).

Definition stop (c : core) : core := with_running false c.

(** Where the thread that runs [start()] stands. *)
Inductive phase : Type :=
| LoopTest                       (* [while self.running:] *)
| Executing                      (* before [self.execute_task_cycle()] *)
| Reflecting                     (* before [self.perform_self_reflection()] *)
| WaitEnter                      (* before [self.wait(60)] *)
| WaitLoop (start_time end_time : Z)   (* the [while] test of [wait] *)
| Returned.                      (* [start()] has returned *)

Record machine : Type := mkMachine {
  state : core;
  pc : phase
}.

(** [start()] up to its loop. *)
Definition start (c : core) : machine :=
  mkMachine (with_running true c) LoopTest.

(** One step of the thread in [start()]. [stop_called] says whether
    another thread ran [stop()] since the previous step. No statement of
    the loop body raises here, so the two [except] clauses of [start]
    stay unused. *)
Definition step (stop_called : bool) (m : machine) : machine :=
  let c := if stop_called then stop (state m) else state m in
  match pc m with
  | LoopTest => mkMachine c (if running c then Executing else Returned)
  | Executing => mkMachine (execute_task_cycle c) Reflecting
  | Reflecting => mkMachine (snd (perform_self_reflection c)) WaitEnter
  | WaitEnter =>
      let (start_time, c) := get_timestamp c in
      let (end_time, c) := get_timestamp c in
      mkMachine c (WaitLoop start_time end_time)
  | WaitLoop start_time end_time =>
      if PrimFloat.ltb (get_time_difference start_time end_time)
                       (float_of_Z 60)
      then let (end_time, c) := get_timestamp c in
           mkMachine c (WaitLoop start_time end_time)
      else mkMachine c LoopTest
  | Returned => mkMachine c Returned
  end.

(** The machine after the steps that the list of [stop()] arrivals
    drives. *)
Definition run (stops : list bool) (m : machine) : machine :=
  fold_left (fun m s => step s m) stops m.

End World.

End AICore.

(** ** Sequences of registry calls *)

Module Session.

Import CapabilityRegistry.

Inductive operation : Type :=
| add (name description : string)
| remove (name : string).

(** The names a caller holds to be registered: those whose [add] returned
    and that no [remove] has since reported as removed. *)
Definition account (o : operation) (returned : result bool)
    (live : list string) : list string :=
  match o, returned with
  | add name _, Ok _ => (live ++ [name])%list
  | remove name, Ok true => filter (fun n => negb (String.eqb n name)) live
  | _, _ => live
  end.

Definition perform (o : operation) (d : disk) (r : registry)
  : registry * result bool :=
  match o with
  | add name description =>
      let (r', out) := add_capability d name description r in
      (r', _ <- out ;; Ok true)
  | remove name => remove_capability d name r
  end.

(** Runs the calls in order, each with the disk it meets, and keeps the
    caller's account next to the registry. *)
Fixpoint session (ops : list (operation * disk)) (r : registry)
    (live : list string) : registry * list string :=
  match ops with
  | [] => (r, live)
  | (o, d) :: ops' =>
      let (r', returned) := perform o d r in
      session ops' r' (account o returned live)
  end.

(** The catalog and the account agree, and the catalog has each name
    once. *)
Definition agree (r : registry) (live : list string) : Prop :=
  NoDup (dict_keys (capabilities r))
  /\ forall n, In n (dict_keys (capabilities r)) <-> In n live.

End Session.

(** ** Concrete inputs *)

Module Scenario.

Import CapabilityRegistry.

(** A loader that found [greet] and [fail_always] in the unit [basic]. *)
Definition loader : dict CapabilityLoader.handle :=
  [("basic.greet", 1); ("basic.fail_always", 2)].

Definition invoke (h : CapabilityLoader.handle) : result value :=
  match h with
  | 1 => Ok (VStr "Hello")
  | _ => Raise (UserError "fail_always")
  end.

Definition healthy : disk :=
  mkDisk (DataPersistence.mkAttempt DataPersistence.Written 0)
         "20240101_000000".
Definition failing : disk :=
  mkDisk (DataPersistence.mkAttempt DataPersistence.Refused 0)
         "20240101_000001".

Definition empty_registry : registry := mkRegistry loader [] [].

Definition two_capabilities : registry :=
  mkRegistry loader
    [("basic.greet", mkCapability (VStr "greets") 1);
     ("basic.fail_always", mkCapability (VStr "fails") 2)] [].

(** [add greet], [add greet] again, [add fail_always], [remove greet]. *)
Definition calls : list (Session.operation * disk) :=
  [(Session.add "basic.greet" "greets", healthy);
   (Session.add "basic.greet" "again", healthy);
   (Session.add "basic.fail_always" "fails", healthy);
   (Session.remove "basic.greet", healthy)].

(** What [dir] lists of a unit with a public function, a helper whose
    name starts with one underscore, a dunder callable and a constant. *)
Definition unit_items : CapabilityLoader.namespace :=
  [("LIMIT", CapabilityLoader.Data (VInt 3));
   ("__loader__", CapabilityLoader.Callable 9);
   ("_helper", CapabilityLoader.Callable 7);
   ("greet", CapabilityLoader.Callable 1)].

Definition ticking_clock (n : nat) : Z := Z.of_nat n.

Definition fresh_core : AICore.core :=
  AICore.mkCore two_capabilities SelfReflection.init false [] 0.

(** Reports as [act_on_insights] may receive them. *)
Definition report_with_bad_anomalies : value :=
  VDict [("anomalies", VList [VStr "spike"]);
         ("areas_for_improvement",
          VList [VStr "Optimize performance for tasks: parse"])].

Definition report_with_all_insights : value :=
  VDict [("trend_analysis",
          VDict [("trend_direction", VStr "decreasing");
                 ("trend_strength", VFloat 0.6%float)]);
         ("anomalies", VList [VBool true; VBool false]);
         ("performance_summary", VDict []);
         ("areas_for_improvement",
          VList [VStr "Optimize performance for tasks: parse";
                 VStr "Improve reliability of capabilities: fetch"])].

(** The thread of [start()] inside [wait(60)], its two readings equal. *)
Definition waiting : AICore.machine :=
  AICore.mkMachine (AICore.with_running true fresh_core) (AICore.WaitLoop 0 0).


(** Handlers of which the trend handler fails. *)
Definition failing_trend_handler (c : AICore.call) : result unit :=
  match c with
  | AICore.address_decreasing_performance _ => Raise (UserError "trend")
  | _ => AICore.handler c
  end.

(** Handlers of which the one for slow tasks fails. *)
Definition failing_optimize_handler (c : AICore.call) : result unit :=
  match c with
  | AICore.optimize_slow_tasks _ => Raise (UserError "optimize")
  | _ => AICore.handler c
  end.

End Scenario.

(** ** [data_persistence.py]: logs and the latest snapshot *)

Module Logs.

Import DataPersistence.

Definition log_file (filename : string) : bool :=
  startswith filename "logs_" && endswith filename ".json".

Definition log_snapshot (logs : value) : value :=
  VDict [("version", VStr DATA_VERSION); ("logs", logs)].

(** [stamp] is [datetime.now().strftime('%Y%m%d_%H%M%S')]. Returns the
    directory afterwards, also when the call raises. *)
Definition save_logs (a : attempt) (stamp : string) (logs : value)
    (fs : directory) : directory * result unit :=
  let (fs', written) :=
    write_attempt a ("logs_" ++ stamp ++ ".json") (log_snapshot logs) fs in
  (fs', reraise_as DataPersistenceError written).

(** The [for filename in os.listdir(DATA_DIR)] loop of [load_logs];
    [logs.extend(...)] takes whatever is iterable. *)
Fixpoint load_log_files (fs : directory) (logs : list value)
  : result (list value) :=
  match fs with
  | [] => Ok logs
  | (filename, content) :: fs' =>
      if log_file filename then
        match content with
        | None => Raise OSError
        | Some data =>
            compatible <- is_compatible_version data ;;
            if compatible then
              entries <- get data "logs" (VList []) ;;
              items <- iter entries ;;
              load_log_files fs' (logs ++ items)%list
            else load_log_files fs' logs
        end
      else load_log_files fs' logs
  end.

Definition load_logs (disk_ok : bool) (fs : directory) : result (list value) :=
  reraise_as DataPersistenceError
    (_ <- ensure_data_directory disk_ok ;;
     load_log_files fs []).


End Logs.

(** ** [capability_loader.py]: [execute_capability] *)

Module LoaderCalls.

Import CapabilityLoader.

(** The loader's own [CapabilityError] passes through; any other exception
    of the call becomes one. *)
Definition execute_capability (invoke : handle -> result value)
    (capabilities : dict handle) (capability_name : string) : result value :=
  match get_capability capabilities capability_name with
  | Raise e => Raise e
  | Ok capability =>
      match invoke capability with
      | Ok v => Ok v
      | Raise LoaderCapabilityError => Raise LoaderCapabilityError
      | Raise _ => Raise LoaderCapabilityError
      end
  end.

(** The test of [load_capabilities] on a file name. *)
Definition loadable (filename : string) : bool :=
  endswith filename ".py" && negb (startswith filename "__").

End LoaderCalls.

(** ** [autonomous_pm.py]: the project log *)

Module ProjectManager.

(** [text.split()]: the maximal runs of characters that are not
    whitespace; [word] is the run being read. *)
Fixpoint split_from (word : string) (text : string) : list string :=
  match text with
  | EmptyString =>
      match word with EmptyString => [] | _ => [word] end
  | String c text' =>
      if isspace c then
        match word with
        | EmptyString => split_from EmptyString text'
        | _ => word :: split_from EmptyString text'
        end
      else split_from (word ++ String c EmptyString) text'
  end.

Definition split (text : string) : list string := split_from EmptyString text.

Definition estimate_tokens (text : string) : Z :=
  Z.of_nat (List.length (split text)).

(** One entry of [project_logs]. *)
Record log_entry : Type := mkLogEntry {
  timestamp : Z;
  action : string;
  description : string;
  success : bool;
  tokens_used : Z
}.

Record manager : Type := mkManager {
  project_logs : list log_entry;
  total_tokens_used : Z
}.

(** [now] is the value of [get_timestamp()]. *)
Definition log_action (now : Z) (action description : string) (success : bool)
    (m : manager) : manager :=
  let tokens_used := estimate_tokens (action ++ description) in
  mkManager
    (project_logs m ++ [mkLogEntry now action description success tokens_used])%list
    (total_tokens_used m + tokens_used).

Definition get_project_logs (m : manager) : list log_entry := project_logs m.

(** The entry as [analyze_project_management_performance] reads it: it has
    the keys [action], [timestamp] and [tokens_used] and no key
    [priority]. *)
Definition as_project_log (e : log_entry) : SelfReflection.project_log :=
  SelfReflection.mkProjectLog (Some (action e)) None (Some (timestamp e))
                              (Some (tokens_used e)).

End ProjectManager.

(** ** What the project analysis can read *)

Module ProjectAnalysis.

Import SelfReflection.

(** The priority of the log, or its default, is a key of the
    distribution, and the log has a timestamp. *)
Definition analysable (log : project_log) : bool :=
  match priority log with
  | None => true
  | Some p => String.eqb p "High" || String.eqb p "Medium" || String.eqb p "Low"
  end
  && match log_timestamp log with Some _ => true | None => false end.

(** [sum(log.get("tokens_used", 0) for log in logs)] *)
Definition tokens_of (logs : list project_log) : Z :=
  fold_right (fun log acc => (get_int (tokens_used log) + acc)%Z) 0%Z logs.

(** One call of [log_action]: the clock reading and the arguments. *)
Definition action_call : Type := Z * string * string * bool.

(** The manager after the calls of [log_action], in order. *)
Definition after_actions (calls : list action_call)
    (m : ProjectManager.manager) : ProjectManager.manager :=
  fold_left (fun m c =>
               let '(now, action, description, success) := c in
               ProjectManager.log_action now action description success m)
            calls m.

End ProjectAnalysis.

(** ** What a listing shows of a catalog entry *)

Module Listing.

Import CapabilityRegistry.

(** The pair [name: info["description"]] of the comprehension in
    [list_capabilities]. *)
Definition listed (entry : string * capability) : string * value :=
  (fst entry, description (snd entry)).

End Listing.

(** ** More concrete inputs *)

Module Cases.

Import CapabilityRegistry.

Definition one_log : value :=
  VDict [("task", VStr "test_task_1"); ("result", VStr "success")].

Definition other_log : value :=
  VDict [("task", VStr "test_task_2"); ("result", VStr "failure")].

(** A directory holding one file of logs and one performance snapshot. *)
Definition mixed_directory : DataPersistence.directory :=
  [("logs_20240101_000000.json", Some (Logs.log_snapshot (VList [one_log])));
   ("performance_20240101_000000.json",
    Some (DataPersistence.snapshot (VInt 5)))].

(** A disk on which the write of the file breaks off after [open]. *)
Definition torn : disk :=
  mkDisk (DataPersistence.mkAttempt DataPersistence.Torn 0)
    "20240101_000002".

(** A registry holding [greet] only. *)
Definition one_capability : registry :=
  mkRegistry Scenario.loader
    [("basic.greet", mkCapability (VStr "greets") 1)] [].

(** A capability directory with a unit, a package file and a text file. *)
Definition capability_files : list (string * option CapabilityLoader.namespace) :=
  [("basic.py", Some Scenario.unit_items);
   ("__init__.py", None);
   ("README.md", None)].

Definition broken_files : list (string * option CapabilityLoader.namespace) :=
  [("basic.py", Some Scenario.unit_items); ("broken.py", None)].

(** Project logs with each priority, and one with a priority the analysis
    does not know. *)
Definition sound_project_logs : list SelfReflection.project_log :=
  [SelfReflection.mkProjectLog (Some "assign_task") (Some "High") (Some 1%Z)
     (Some 4%Z);
   SelfReflection.mkProjectLog (Some "complete_task") None (Some 2%Z) None;
   SelfReflection.mkProjectLog (Some "complete_task") (Some "Low") (Some 3%Z)
     (Some 6%Z)].

(** A clock that jumps by 30 seconds per reading. *)
Definition half_minute_clock (n : nat) : Z := (30 * Z.of_nat n)%Z.

Definition manager_after_two_actions : ProjectManager.manager :=
  ProjectManager.log_action 2 "complete_task" "Completed task: Task 1" true
    (ProjectManager.log_action 1 "assign_task" "Assigned task: Task 1" true
       (ProjectManager.mkManager [] 0)).

End Cases.

(** * Properties *)

(** ** Dictionaries and strings *)

Section DictFacts.
Context {V : Type}.
Implicit Types (d : dict V) (k : string) (v : V).

Lemma dict_get_In k d : dict_get k d <> None <-> In k (dict_keys d).
Proof.
  induction d as [|[k' v'] d IH]; simpl.
  - split; [congruence | tauto].
  - destruct (String.eqb_spec k k') as [->|Hne].
    + split; [auto | congruence].
    + rewrite IH. split; [auto | intros [H|H]; [congruence | exact H]].
Qed.

Lemma dict_mem_In k d : dict_mem k d = true <-> In k (dict_keys d).
Proof.
  rewrite <- dict_get_In. unfold dict_mem.
  destruct (dict_get k d); split; congruence.
Qed.

Lemma dict_mem_not_In k d : dict_mem k d = false <-> ~ In k (dict_keys d).
Proof.
  rewrite <- dict_mem_In. destruct (dict_mem k d); split; congruence.
Qed.

Lemma dict_get_set_same k v d : dict_get k (dict_set k v d) = Some v.
Proof.
  induction d as [|[k' v'] d IH]; simpl.
  - now rewrite String.eqb_refl.
  - destruct (String.eqb_spec k k') as [->|Hne]; simpl.
    + now rewrite String.eqb_refl.
    + destruct (String.eqb_spec k k'); [congruence | exact IH].
Qed.

Lemma dict_get_set_other k k' v d :
  k' <> k -> dict_get k' (dict_set k v d) = dict_get k' d.
Proof.
  intros Hne. induction d as [|[k0 v0] d IH]; simpl.
  - destruct (String.eqb_spec k' k); [congruence | reflexivity].
  - destruct (String.eqb_spec k k0) as [->|Hk]; simpl.
    + destruct (String.eqb_spec k' k0); [congruence | reflexivity].
    + destruct (String.eqb_spec k' k0); [reflexivity | exact IH].
Qed.

Lemma dict_keys_set k v d x :
  In x (dict_keys (dict_set k v d)) <-> x = k \/ In x (dict_keys d).
Proof.
  induction d as [|[k' v'] d IH]; simpl.
  - intuition.
  - destruct (String.eqb_spec k k') as [->|Hne]; simpl.
    + intuition.
    + rewrite IH. intuition.
Qed.

Lemma dict_keys_set_NoDup k v d :
  NoDup (dict_keys d) -> NoDup (dict_keys (dict_set k v d)).
Proof.
  induction d as [|[k' v'] d IH]; simpl; intros Hd.
  - constructor; [tauto | constructor].
  - inversion Hd as [|? ? Hnotin Hrest]; subst.
    destruct (String.eqb_spec k k') as [->|Hne]; simpl.
    + constructor; assumption.
    + constructor; [|auto].
      rewrite dict_keys_set. intros [E|E]; [congruence | contradiction].
Qed.

Lemma dict_keys_del k d x :
  NoDup (dict_keys d) ->
  In x (dict_keys (dict_del k d)) <-> x <> k /\ In x (dict_keys d).
Proof.
  induction d as [|[k' v'] d IH]; simpl; intros Hd.
  - tauto.
  - inversion Hd as [|? ? Hnotin Hrest]; subst.
    destruct (String.eqb_spec k k') as [->|Hne]; simpl.
    + split.
      * intros Hx. split; [intros ->; contradiction | auto].
      * intros [Hx [E|E]]; [congruence | exact E].
    + rewrite (IH Hrest). split.
      * intros [E|[Hx E]]; [subst; split; [congruence | auto] | auto].
      * intros [Hx [E|E]]; auto.
Qed.

Lemma dict_keys_del_NoDup k d :
  NoDup (dict_keys d) -> NoDup (dict_keys (dict_del k d)).
Proof.
  induction d as [|[k' v'] d IH]; simpl; intros Hd; [constructor|].
  inversion Hd as [|? ? Hnotin Hrest]; subst.
  destruct (String.eqb_spec k k'); simpl; [assumption|].
  constructor; [|auto].
  rewrite (dict_keys_del _ _ _ Hrest). tauto.
Qed.
End DictFacts.

Lemma prefix_append (p s : string) : String.prefix p (p ++ s) = true.
Proof.
  induction p as [|c p IH]; simpl.
  - now destruct s.
  - destruct (Ascii.ascii_dec c c); [exact IH | congruence].
Qed.

Lemma endswith_append (s suffix : string) : endswith (s ++ suffix) suffix = true.
Proof.
  induction s as [|c s IH].
  - change ("" ++ suffix) with suffix.
    destruct suffix; cbn [endswith]; now rewrite String.eqb_refl.
  - change (String c s ++ suffix) with (String c (s ++ suffix)).
    cbn [endswith]. rewrite IH. now destruct (String.eqb _ _).
Qed.

Lemma append_assoc (a b c : string) : ((a ++ b) ++ c = a ++ (b ++ c))%string.
Proof. induction a; simpl; congruence. Qed.

Lemma append_inj_l (a b c : string) : (a ++ b = a ++ c)%string -> b = c.
Proof. induction a; simpl; intros H; [exact H | injection H; auto]. Qed.

(** ** Persistence: loading snapshots *)

Section Persistence.
Import DataPersistence.

Lemma eq_str_true (obj : value) (s : string) :
  eq_str obj s = true -> obj = VStr s.
Proof.
  destruct obj; simpl; try discriminate.
  now intros ->%String.eqb_eq.
Qed.

Lemma incompatible_version (d : dict value) :
  dict_get "version" d <> Some (VStr DATA_VERSION) ->
  is_compatible_version (VDict d) = Ok false.
Proof.
  intros Hv. unfold is_compatible_version; simpl.
  destruct (dict_get "version" d) as [v|]; [|reflexivity].
  destruct (eq_str v DATA_VERSION) eqn:E; [|reflexivity].
  apply eq_str_true in E. congruence.
Qed.

Lemma compatible_version (d : dict value) :
  dict_get "version" d = Some (VStr DATA_VERSION) ->
  is_compatible_version (VDict d) = Ok true.
Proof. intros Hv. unfold is_compatible_version; simpl. now rewrite Hv. Qed.

Lemma load_performance_files_app (a b : directory) (acc : list value) :
  load_performance_files (a ++ b)%list acc =
  (l <- load_performance_files a acc ;; load_performance_files b l).
Proof.
  revert acc. induction a as [|[f c] a IH]; intros acc; simpl; [reflexivity|].
  destruct (performance_file f); [|apply IH].
  destruct c as [data|]; [|reflexivity].
  destruct (is_compatible_version data) as [[|]|e]; simpl;
    [|apply IH|reflexivity].
  destruct (get data "performance_data" (VDict [])); simpl;
    [apply IH|reflexivity].
Qed.

Lemma load_performance_files_acc (fs : directory) (acc : list value) :
  load_performance_files fs acc =
  (l <- load_performance_files fs [] ;; Ok (acc ++ l)%list).
Proof.
  revert acc. induction fs as [|[f c] fs IH]; intros acc; simpl.
  - now rewrite app_nil_r.
  - destruct (performance_file f); [|apply IH].
    destruct c as [data|]; [|reflexivity].
    destruct (is_compatible_version data) as [[|]|e]; simpl;
      [|apply IH|reflexivity].
    destruct (get data "performance_data" (VDict [])) as [pd|e]; simpl;
      [|reflexivity].
    rewrite (IH (acc ++ [pd])%list), (IH [pd]).
    destruct (load_performance_files fs []); simpl; [|reflexivity].
    now rewrite <- app_assoc.
Qed.

(** A compatible snapshot in the directory shows up in whatever a
    successful load returns. *)
Lemma load_performance_files_In (fs : directory) (acc l : list value)
      (f : string) (data pd : value) :
  In (f, Some data) fs ->
  performance_file f = true ->
  is_compatible_version data = Ok true ->
  get data "performance_data" (VDict []) = Ok pd ->
  load_performance_files fs acc = Ok l ->
  In pd l.
Proof.
  intros Hin Hf Hc Hpd. revert acc.
  induction fs as [|[f' c] fs IH]; intros acc Hl; [contradiction|].
  destruct Hin as [E|Hin].
  - injection E as -> ->. simpl in Hl. rewrite Hf, Hc in Hl. simpl in Hl.
    rewrite Hpd in Hl. simpl in Hl.
    rewrite load_performance_files_acc in Hl.
    destruct (load_performance_files fs []); [|discriminate].
    injection Hl as <-. apply in_or_app. left. apply in_or_app. right.
    now left.
  - simpl in Hl. destruct (performance_file f'); [|eauto].
    destruct c as [data'|]; [|discriminate].
    destruct (is_compatible_version data') as [[|]|e]; simpl in Hl;
      [|eauto|discriminate].
    destruct (get data' "performance_data" (VDict [])); simpl in Hl;
      [eauto|discriminate].
Qed.

Lemma load_performance_files_skip (f : string) (d : dict value)
      (fs : directory) (acc : list value) :
  dict_get "version" d <> Some (VStr DATA_VERSION) ->
  load_performance_files ((f, Some (VDict d)) :: fs) acc
  = load_performance_files fs acc.
Proof.
  intros Hv. cbn [load_performance_files].
  rewrite (incompatible_version d Hv). cbn [bind].
  now destruct (performance_file f).
Qed.

Lemma load_performance_files_take (f : string) (d : dict value)
      (fs : directory) (acc : list value) :
  dict_get "version" d = Some (VStr DATA_VERSION) ->
  performance_file f = true ->
  load_performance_files ((f, Some (VDict d)) :: fs) acc
  = load_performance_files fs
      (acc ++ [match dict_get "performance_data" d with
               | Some v => v
               | None => VDict []
               end])%list.
Proof.
  intros Hv Hf. cbn [load_performance_files].
  rewrite Hf, (compatible_version d Hv). reflexivity.
Qed.

Lemma insert_at_In (place : nat) (entry : string * option value)
      (fs : directory) :
  In entry (insert_at place entry fs).
Proof.
  revert fs. induction place as [|p IH]; intros [|x fs]; simpl; auto.
Qed.

Lemma replace_file_In (name : string) (content : option value)
      (fs : directory) :
  existsb (String.eqb name) (map fst fs) = true ->
  In (name, content) (replace_file name content fs).
Proof.
  induction fs as [|[n c] fs IH]; simpl; [discriminate|].
  destruct (String.eqb_spec name n) as [->|Hne]; simpl; [now left|].
  intros H. right. now apply IH.
Qed.

Lemma put_file_In (place : nat) (name : string) (content : option value)
      (fs : directory) :
  In (name, content) (put_file place name content fs).
Proof.
  unfold put_file.
  destruct (existsb (String.eqb name) (map fst fs)) eqn:E.
  - now apply replace_file_In.
  - apply insert_at_In.
Qed.

Lemma write_file_In (place : nat) (name : string) (content : value)
      (fs : directory) :
  In (name, Some content) (write_file place name content fs).
Proof. apply put_file_In. Qed.

Lemma saved_file_is_performance_file (stamp : string) :
  performance_file ("performance_" ++ stamp ++ ".json") = true.
Proof.
  unfold performance_file, startswith.
  rewrite prefix_append. rewrite <- append_assoc. now rewrite endswith_append.
Qed.
End Persistence.

(** C9. A snapshot whose version field differs from [DATA_VERSION] (or is
    missing) is skipped by [load_performance_data]: with or without the
    file the load returns, or raises, the same, so the mismatch neither
    raises nor contributes an entry. A snapshot with the matching version
    contributes its [performance_data], between what the files listed
    before it and after it contribute. *)
Theorem load_skips_incompatible_version
    (readable : bool) (before after : DataPersistence.directory)
    (filename : string) (d : dict value) :
  (dict_get "version" d <> Some (VStr DataPersistence.DATA_VERSION) ->
   DataPersistence.load_performance_data readable
     (before ++ (filename, Some (VDict d)) :: after)%list
   = DataPersistence.load_performance_data readable (before ++ after)%list)
  /\
  (dict_get "version" d = Some (VStr DataPersistence.DATA_VERSION) ->
   DataPersistence.performance_file filename = true ->
   DataPersistence.load_performance_data readable
     (before ++ (filename, Some (VDict d)) :: after)%list
   = (l1 <- DataPersistence.load_performance_data readable before ;;
      l2 <- DataPersistence.load_performance_data readable after ;;
      Ok (l1 ++ [match dict_get "performance_data" d with
                 | Some v => v
                 | None => VDict []
                 end] ++ l2)%list)).
Proof.
  unfold DataPersistence.load_performance_data.
  split.
  - intros Hv. destruct readable; [|reflexivity].
    cbn [DataPersistence.ensure_data_directory bind].
    rewrite !load_performance_files_app.
    destruct (DataPersistence.load_performance_files before []) as [l1|e];
      cbn [bind]; [|reflexivity].
    now rewrite (load_performance_files_skip filename d after l1 Hv).
  - intros Hv Hf. destruct readable; [|reflexivity].
    cbn [DataPersistence.ensure_data_directory bind].
    rewrite load_performance_files_app.
    destruct (DataPersistence.load_performance_files before []) as [l1|e];
      cbn [bind reraise_as]; [|reflexivity].
    rewrite (load_performance_files_take filename d after l1 Hv Hf).
    rewrite load_performance_files_acc.
    destruct (DataPersistence.load_performance_files after []) as [l2|e];
      cbn [bind reraise_as]; [|reflexivity].
    now rewrite <- app_assoc.
Qed.

Lemma load_skips_incompatible_version_witness :
  DataPersistence.load_performance_data true
    [("performance_a.json",
      Some (VDict [("version", VStr "1.0"); ("performance_data", VInt 1)]));
     ("performance_b.json",
      Some (VDict [("version", VStr "2.0"); ("performance_data", VInt 2)]));
     ("performance_c.json",
      Some (VDict [("version", VStr "1.0"); ("performance_data", VInt 3)]))]
  = Ok [VInt 1; VInt 3].
Proof.
  refine (eq_trans
            (proj1 (load_skips_incompatible_version true
               [("performance_a.json",
                 Some (VDict [("version", VStr "1.0");
                              ("performance_data", VInt 1)]))]
               [("performance_c.json",
                 Some (VDict [("version", VStr "1.0");
                              ("performance_data", VInt 3)]))]
               "performance_b.json"
               [("version", VStr "2.0"); ("performance_data", VInt 2)]) _) _).
  - simpl. discriminate.
  - reflexivity.
Defined.

(** ** The registry: persistence of the catalog *)

Section RegistryPersistence.
Import DataPersistence CapabilityRegistry.

(** An entry that is not a dictionary stops [_load_capabilities]:
    [entry.get] does not exist on it. *)
Lemma load_entries_not_dict (loader : dict CapabilityLoader.handle)
      (stored_data : list value) (records : list value) :
  In (VList records) stored_data ->
  forall caps, is_ok (load_entries loader stored_data caps) = false.
Proof.
  induction stored_data as [|entry rest IH]; intros Hin caps; [contradiction|].
  destruct Hin as [->|Hin]; [reflexivity|].
  cbn [load_entries].
  destruct (get entry "type" VNone) as [type|]; cbn [bind]; [|reflexivity].
  destruct (eq_str type "capability"); [|auto].
  destruct (subscript entry "name") as [name|]; cbn [bind]; [|reflexivity].
  destruct (subscript entry "description"); cbn [bind]; [|reflexivity].
  destruct (loader_lookup loader name); cbn [bind]; [|reflexivity].
  destruct name; auto.
Qed.

Lemma save_capabilities_writes (d : disk) (r r' : registry) :
  _save_capabilities d r = (r', Ok tt) ->
  In (("performance_" ++ stamp d ++ ".json")%string,
      Some (snapshot (VList (map record_of (capabilities r)))))
     (data_dir r').
Proof.
  unfold _save_capabilities, save_performance_data, write_attempt.
  destruct (outcome (write d)); cbn [reraise_as]; try discriminate.
  intros E. injection E as <-. apply write_file_In.
Qed.
End RegistryPersistence.

(** C3. Whatever catalog [_save_capabilities] has written, no directory
    that holds the written file, in any order and next to any other files,
    can be loaded again: [load_performance_data] returns the saved list of
    records as one entry, and [_load_capabilities] calls [entry.get] on that
    list. The catalog's name and description pairs are never rebuilt. *)
Theorem saved_catalog_fails_to_reload
    (d : CapabilityRegistry.disk) (r r' : CapabilityRegistry.registry)
    (readable : bool) (loader : dict CapabilityLoader.handle)
    (fs : DataPersistence.directory)
    (caps : dict CapabilityRegistry.capability) :
  CapabilityRegistry._save_capabilities d r = (r', Ok tt) ->
  incl (CapabilityRegistry.data_dir r') fs ->
  is_ok (CapabilityRegistry._load_capabilities readable loader fs caps) = false.
Proof.
  intros Hsave Hincl.
  apply save_capabilities_writes, Hincl in Hsave.
  unfold CapabilityRegistry._load_capabilities,
    DataPersistence.load_performance_data.
  destruct readable; [|reflexivity].
  cbn [DataPersistence.ensure_data_directory bind].
  destruct (DataPersistence.load_performance_files fs []) as [l|e] eqn:Hl;
    cbn [reraise_as bind]; [|reflexivity].
  eapply load_entries_not_dict.
  eapply load_performance_files_In;
    [exact Hsave | apply saved_file_is_performance_file | | | exact Hl];
    reflexivity.
Qed.

(** The catalog [{"basic.greet": "greets", "basic.fail_always": "fails"}]
    saved into an empty data directory, and a registry constructed from
    that directory. *)
Lemma saved_catalog_fails_to_reload_witness :
  is_ok (CapabilityRegistry._load_capabilities true Scenario.loader
           (CapabilityRegistry.data_dir
              (fst (CapabilityRegistry._save_capabilities
                      Scenario.healthy Scenario.two_capabilities))) [])
  = false.
Proof.
  apply (saved_catalog_fails_to_reload Scenario.healthy
           Scenario.two_capabilities
           (fst (CapabilityRegistry._save_capabilities
                   Scenario.healthy Scenario.two_capabilities))).
  - reflexivity.
  - apply incl_refl.
Defined.

Example reload_raises_AttributeError :
  CapabilityRegistry.init true Scenario.loader
    (CapabilityRegistry.data_dir
       (fst (CapabilityRegistry._save_capabilities
               Scenario.healthy Scenario.two_capabilities)))
  = Raise AttributeError.
Proof. reflexivity. Qed.

Example reload_of_empty_catalog_raises :
  CapabilityRegistry.init true Scenario.loader
    (CapabilityRegistry.data_dir
       (fst (CapabilityRegistry._save_capabilities
               Scenario.healthy Scenario.empty_registry)))
  = Raise AttributeError.
Proof. reflexivity. Qed.

(** ** The registry: [add_capability] and [remove_capability] *)

Section RegistryCalls.
Import DataPersistence CapabilityRegistry.

Lemma save_capabilities_catalog (d : disk) (r : registry) :
  capabilities (fst (_save_capabilities d r)) = capabilities r
  /\ capability_loader (fst (_save_capabilities d r)) = capability_loader r.
Proof.
  unfold _save_capabilities.
  now destruct (save_performance_data _ _ _ _).
Qed.

Lemma save_capabilities_outcome (d : disk) (r : registry) :
  _save_capabilities d r =
  if disk_ok d
  then (with_data_dir
          (write_file (place (write d)) ("performance_" ++ stamp d ++ ".json")
             (snapshot (VList (map record_of (capabilities r))))
             (data_dir r)) r, Ok tt)
  else (with_data_dir
          (fst (save_performance_data (write d) (stamp d)
                  (VList (map record_of (capabilities r))) (data_dir r))) r,
        Raise DataPersistenceError).
Proof.
  unfold _save_capabilities, save_performance_data, write_attempt, disk_ok.
  now destruct (outcome (write d)).
Qed.

(** [add_capability], case by case. *)
Lemma add_capability_cases (d : disk) (name description : string)
      (r : registry) :
  add_capability d name description r =
  if str_not (strip name) then (r, Raise CapabilityError)
  else if dict_mem name (capabilities r) then (r, Raise CapabilityError)
  else match CapabilityLoader.get_capability (capability_loader r) name with
       | Raise _ => (r, Raise CapabilityError)
       | Ok f =>
           let r1 := with_capabilities
                       (dict_set name (mkCapability (VStr description) f)
                          (capabilities r)) r in
           if disk_ok d
           then (with_data_dir
                   (write_file (place (write d))
                      ("performance_" ++ stamp d ++ ".json")
                      (snapshot (VList (map record_of (capabilities r1))))
                      (data_dir r)) r1, Ok tt)
           else (with_data_dir
                   (fst (save_performance_data (write d) (stamp d)
                           (VList (map record_of (capabilities r1)))
                           (data_dir r))) r1,
                 Raise CapabilityError)
       end.
Proof.
  unfold add_capability, add_capability_try.
  destruct (str_not (strip name)); [reflexivity|].
  destruct (dict_mem name (capabilities r)); [reflexivity|].
  destruct (CapabilityLoader.get_capability _ _); [|reflexivity].
  rewrite save_capabilities_outcome.
  now destruct (disk_ok d).
Qed.

(** [remove_capability], case by case. *)
Lemma remove_capability_cases (d : disk) (name : string) (r : registry) :
  remove_capability d name r =
  if dict_mem name (capabilities r) then
    let r1 := with_capabilities (dict_del name (capabilities r)) r in
    if disk_ok d
    then (with_data_dir
            (write_file (place (write d))
               ("performance_" ++ stamp d ++ ".json")
               (snapshot (VList (map record_of (capabilities r1))))
               (data_dir r)) r1, Ok true)
    else (with_data_dir
            (fst (save_performance_data (write d) (stamp d)
                    (VList (map record_of (capabilities r1)))
                    (data_dir r))) r1,
          Raise CapabilityError)
  else (r, Ok false).
Proof.
  unfold remove_capability, remove_capability_try.
  destruct (dict_mem name (capabilities r)); [|reflexivity].
  rewrite save_capabilities_outcome.
  now destruct (disk_ok d).
Qed.

(** The comprehension of [list_capabilities] lists the keys of the
    catalog, each once. *)
Lemma comprehension_keys (caps : dict capability) (acc : dict value)
      (n : string) :
  In n (dict_keys
          (fold_left (fun acc entry =>
                        dict_set (fst entry) (description (snd entry)) acc)
                     caps acc))
  <-> In n (dict_keys acc) \/ In n (dict_keys caps).
Proof.
  revert acc. induction caps as [|[k c] caps IH]; intros acc; simpl.
  - tauto.
  - rewrite IH, dict_keys_set. simpl. intuition.
Qed.

Lemma comprehension_NoDup (caps : dict capability) (acc : dict value) :
  NoDup (dict_keys acc) ->
  NoDup (dict_keys
           (fold_left (fun acc entry =>
                         dict_set (fst entry) (description (snd entry)) acc)
                      caps acc)).
Proof.
  revert acc. induction caps as [|[k c] caps IH]; intros acc Hacc; simpl.
  - exact Hacc.
  - apply IH. now apply dict_keys_set_NoDup.
Qed.

Lemma list_capabilities_keys (r : registry) (n : string) :
  In n (dict_keys (list_capabilities r)) <-> In n (dict_keys (capabilities r)).
Proof.
  unfold list_capabilities. rewrite comprehension_keys. simpl. tauto.
Qed.

Lemma list_capabilities_NoDup (r : registry) :
  NoDup (dict_keys (list_capabilities r)).
Proof. apply comprehension_NoDup. constructor. Qed.
End RegistryCalls.

(** C1, as the code has it. If the name is blank (empty or whitespace
    only), already in the catalog, or unknown to the loader,
    [add_capability] raises [CapabilityError] and the registry, its data
    directory included, is exactly as it was. Otherwise the entry is put
    into the catalog before the write and is never taken back. If the write
    succeeds, the call returns and the file written is the snapshot of the
    updated catalog. If the write fails, the call raises [CapabilityError]
    and the catalog keeps the new entry; the data directory is then as it
    was when the system refused the write, and holds the target file
    unreadable when the write broke off: never a snapshot of a catalog that
    was not in memory. *)
Theorem add_capability_all_or_nothing
    (d : CapabilityRegistry.disk) (name description : string)
    (r : CapabilityRegistry.registry) :
  (str_not (strip name) = true
   \/ In name (dict_keys (CapabilityRegistry.capabilities r))
   \/ dict_get name (CapabilityRegistry.capability_loader r) = None ->
   CapabilityRegistry.add_capability d name description r
   = (r, Raise CapabilityError))
  /\ (forall f,
        str_not (strip name) = false ->
        ~ In name (dict_keys (CapabilityRegistry.capabilities r)) ->
        dict_get name (CapabilityRegistry.capability_loader r) = Some f ->
        let caps' :=
          dict_set name (CapabilityRegistry.mkCapability (VStr description) f)
                   (CapabilityRegistry.capabilities r) in
        let file := "performance_" ++ CapabilityRegistry.stamp d ++ ".json" in
        let at_place := DataPersistence.place (CapabilityRegistry.write d) in
        CapabilityRegistry.add_capability d name description r
        = match DataPersistence.outcome (CapabilityRegistry.write d) with
          | DataPersistence.Written =>
              (CapabilityRegistry.mkRegistry
                 (CapabilityRegistry.capability_loader r) caps'
                 (DataPersistence.write_file at_place file
                    (DataPersistence.snapshot
                       (VList (map CapabilityRegistry.record_of caps')))
                    (CapabilityRegistry.data_dir r)),
               Ok tt)
          | DataPersistence.Refused =>
              (CapabilityRegistry.mkRegistry
                 (CapabilityRegistry.capability_loader r) caps'
                 (CapabilityRegistry.data_dir r),
               Raise CapabilityError)
          | DataPersistence.Torn =>
              (CapabilityRegistry.mkRegistry
                 (CapabilityRegistry.capability_loader r) caps'
                 (DataPersistence.put_file at_place file None
                    (CapabilityRegistry.data_dir r)),
               Raise CapabilityError)
          end).
Proof.
  split.
  - intros Hrejected. rewrite add_capability_cases.
    destruct (str_not (strip name)); [reflexivity|].
    destruct (dict_mem name (CapabilityRegistry.capabilities r)) eqn:Hmem;
      [reflexivity|].
    destruct Hrejected as [Hblank|[Hin|Hunknown]].
    + discriminate Hblank.
    + apply dict_mem_In in Hin. congruence.
    + unfold CapabilityLoader.get_capability. now rewrite Hunknown.
  - intros f Hname Hfresh Hknown. cbv zeta.
    rewrite add_capability_cases, Hname.
    apply dict_mem_not_In in Hfresh. rewrite Hfresh.
    unfold CapabilityLoader.get_capability. rewrite Hknown.
    cbv zeta.
    unfold CapabilityRegistry.disk_ok, DataPersistence.save_performance_data,
      DataPersistence.write_attempt.
    now destruct (DataPersistence.outcome (CapabilityRegistry.write d)).
Qed.

(** A first add on a disk that takes the write, and an add of the empty
    name. *)
Lemma add_capability_all_or_nothing_witness :
  CapabilityRegistry.add_capability Scenario.healthy "basic.greet" "greets"
    Scenario.empty_registry
  = (CapabilityRegistry.mkRegistry Scenario.loader
       [("basic.greet", CapabilityRegistry.mkCapability (VStr "greets") 1)]
       [("performance_20240101_000000.json",
         Some (DataPersistence.snapshot
                 (VList [CapabilityRegistry.record_of
                           ("basic.greet",
                            CapabilityRegistry.mkCapability
                              (VStr "greets") 1)])))],
     Ok tt)
  /\ CapabilityRegistry.add_capability Scenario.healthy "" "nameless"
       Scenario.empty_registry
     = (Scenario.empty_registry, Raise CapabilityError).
Proof.
  split.
  - apply (proj2 (add_capability_all_or_nothing Scenario.healthy
                    "basic.greet" "greets" Scenario.empty_registry) 1).
    + reflexivity.
    + simpl. tauto.
    + reflexivity.
  - apply (proj1 (add_capability_all_or_nothing Scenario.healthy ""
                    "nameless" Scenario.empty_registry)).
    left. reflexivity.
Defined.

(** C1 as stated fails: with a resolvable new name and a disk that refuses
    the write, [add_capability] raises and the catalog has changed. *)
Lemma add_capability_keeps_entry_when_write_fails :
  snd (CapabilityRegistry.add_capability Scenario.failing
         "basic.greet" "greets" Scenario.empty_registry)
  = Raise CapabilityError
  /\ CapabilityRegistry.capabilities
       (fst (CapabilityRegistry.add_capability Scenario.failing
               "basic.greet" "greets" Scenario.empty_registry))
     <> CapabilityRegistry.capabilities Scenario.empty_registry.
Proof. split; [reflexivity | discriminate]. Qed.

(** ** The registry: the catalog against the caller's account *)

Section CatalogIntegrity.
Import CapabilityRegistry Session.

Lemma perform_keeps_NoDup (o : operation) (d : disk) (r : registry) :
  NoDup (dict_keys (capabilities r)) ->
  NoDup (dict_keys (capabilities (fst (perform o d r)))).
Proof.
  intros Hnd. destruct o as [name description|name]; cbn [perform].
  - rewrite add_capability_cases.
    destruct (str_not (strip name)); [exact Hnd|].
    destruct (dict_mem name (capabilities r)); [exact Hnd|].
    destruct (CapabilityLoader.get_capability _ name); [|exact Hnd].
    cbv zeta. destruct (disk_ok d); simpl; now apply dict_keys_set_NoDup.
  - rewrite remove_capability_cases.
    destruct (dict_mem name (capabilities r)); [|exact Hnd].
    cbv zeta. destruct (disk_ok d); simpl; now apply dict_keys_del_NoDup.
Qed.

Lemma perform_keeps_agree (o : operation) (d : disk) (r : registry)
      (live : list string) :
  disk_ok d = true ->
  agree r live ->
  agree (fst (perform o d r)) (account o (snd (perform o d r)) live).
Proof.
  intros Hd [Hnd Hlive].
  split; [now apply perform_keeps_NoDup|].
  destruct o as [name description|name]; cbn [perform].
  - rewrite add_capability_cases.
    destruct (str_not (strip name)); [exact Hlive|].
    destruct (dict_mem name (capabilities r)); [exact Hlive|].
    destruct (CapabilityLoader.get_capability _ name); [|exact Hlive].
    cbv zeta. rewrite Hd. simpl. intros n.
    rewrite dict_keys_set, in_app_iff, Hlive. simpl. intuition.
  - rewrite remove_capability_cases.
    destruct (dict_mem name (capabilities r)); [|exact Hlive].
    cbv zeta. rewrite Hd. simpl. intros n.
    rewrite (dict_keys_del _ _ _ Hnd), filter_In, Hlive.
    destruct (String.eqb_spec n name); simpl; intuition congruence.
Qed.

Lemma session_keeps_agree (ops : list (operation * disk)) :
  forallb (fun od => disk_ok (snd od)) ops = true ->
  forall r live,
    agree r live ->
    agree (fst (session ops r live)) (snd (session ops r live)).
Proof.
  induction ops as [|[o d] ops IH]; intros Hok r live Hagree; [exact Hagree|].
  simpl in Hok. apply andb_prop in Hok as [Hd Hok].
  cbn [session].
  pose proof (perform_keeps_agree o d r live Hd Hagree) as Hstep.
  destruct (perform o d r) as [r1 returned]. now apply IH.
Qed.

Lemma session_keeps_NoDup (ops : list (operation * disk)) :
  forall r live,
    NoDup (dict_keys (capabilities r)) ->
    NoDup (dict_keys (capabilities (fst (session ops r live)))).
Proof.
  induction ops as [|[o d] ops IH]; intros r live Hnd; [exact Hnd|].
  cbn [session].
  pose proof (perform_keeps_NoDup o d r Hnd) as Hstep.
  destruct (perform o d r) as [r1 returned]. now apply IH.
Qed.

(** An [add] of a name the catalog holds is rejected and changes
    nothing, whatever the disk does. *)
Lemma add_capability_duplicate (d : disk) (name description : string)
      (r : registry) :
  In name (dict_keys (capabilities r)) ->
  add_capability d name description r = (r, Raise CapabilityError).
Proof.
  intros Hin. rewrite add_capability_cases.
  destruct (str_not (strip name)); [reflexivity|].
  apply dict_mem_In in Hin. now rewrite Hin.
Qed.
End CatalogIntegrity.

(** C5, as the code has it. Start from an empty catalog and run any
    sequence of [add] and [remove] calls whose persistence writes all
    succeed. Then [list_capabilities] holds exactly the names whose [add]
    returned and that no later [remove] reported as removed, each name once.
    In the registry reached, an [add] of a listed name raises
    [CapabilityError] and leaves the registry as it is, the name still
    listed once, whatever the disk does then. *)
Theorem catalog_integrity
    (ops : list (Session.operation * CapabilityRegistry.disk))
    (r0 : CapabilityRegistry.registry) :
  CapabilityRegistry.capabilities r0 = [] ->
  forallb (fun od => CapabilityRegistry.disk_ok (snd od)) ops = true ->
  let r := fst (Session.session ops r0 []) in
  let live := snd (Session.session ops r0 []) in
  NoDup (dict_keys (CapabilityRegistry.list_capabilities r))
  /\ (forall n,
        In n (dict_keys (CapabilityRegistry.list_capabilities r)) <-> In n live)
  /\ (forall d name description,
        In name (dict_keys (CapabilityRegistry.list_capabilities r)) ->
        CapabilityRegistry.add_capability d name description r
        = (r, Raise CapabilityError)
        /\ count_occ string_dec
             (dict_keys (CapabilityRegistry.list_capabilities r)) name = 1).
Proof.
  intros Hempty Hok r live.
  assert (Hagree : Session.agree r0 []).
  { split; rewrite Hempty; simpl; [constructor | tauto]. }
  apply (session_keeps_agree ops Hok) in Hagree.
  destruct Hagree as [Hnd Hlive]. fold r live in Hnd, Hlive.
  split; [apply list_capabilities_NoDup|].
  split.
  - intros n. now rewrite list_capabilities_keys.
  - intros d name description Hin. split.
    + apply add_capability_duplicate. now apply list_capabilities_keys.
    + apply NoDup_count_occ'; [apply list_capabilities_NoDup | exact Hin].
Qed.

Lemma catalog_integrity_witness :
  NoDup (dict_keys
           (CapabilityRegistry.list_capabilities
              (fst (Session.session Scenario.calls Scenario.empty_registry []))))
  /\ (forall n,
        In n (dict_keys
                (CapabilityRegistry.list_capabilities
                   (fst (Session.session Scenario.calls
                           Scenario.empty_registry []))))
        <-> In n (snd (Session.session Scenario.calls
                         Scenario.empty_registry []))).
Proof.
  pose proof (catalog_integrity Scenario.calls Scenario.empty_registry
                eq_refl eq_refl) as H.
  cbv zeta in H. exact (conj (proj1 H) (proj1 (proj2 H))).
Defined.

(** C5 as stated fails: after one [add] that raises because the disk
    refuses the write, [list_capabilities] holds a name whose [add] did not
    succeed. *)
Lemma failed_add_is_listed :
  snd (CapabilityRegistry.add_capability Scenario.failing
         "basic.greet" "greets" Scenario.empty_registry)
  = Raise CapabilityError
  /\ In "basic.greet"
       (dict_keys
          (CapabilityRegistry.list_capabilities
             (fst (Session.session
                     [(Session.add "basic.greet" "greets", Scenario.failing)]
                     Scenario.empty_registry []))))
  /\ ~ In "basic.greet"
       (snd (Session.session
               [(Session.add "basic.greet" "greets", Scenario.failing)]
               Scenario.empty_registry [])).
Proof.
  split; [reflexivity|]. split; [simpl; auto | simpl; tauto].
Qed.

(** ** The loader: which symbols a unit registers *)

Section Loader.
Import CapabilityLoader.

Lemma capability_name_inj (module_name a b : string) :
  capability_name module_name a = capability_name module_name b -> a = b.
Proof.
  unfold capability_name. intros H.
  apply append_inj_l in H. now apply (append_inj_l ".") in H.
Qed.

Lemma register_items_get (module_name : string) (items : namespace)
      (item_name : string) :
  forall caps,
    dict_get (capability_name module_name item_name)
             (register_items module_name items caps)
    = match registered items item_name with
      | Some h => Some h
      | None => dict_get (capability_name module_name item_name) caps
      end.
Proof.
  induction items as [|[n item] items IH]; intros caps; [reflexivity|].
  cbn [register_items registered]. rewrite IH.
  destruct (registered items item_name); [reflexivity|].
  destruct item as [h|v]; [|reflexivity].
  destruct (String.eqb_spec n item_name) as [->|Hne]; simpl.
  - destruct (startswith item_name "__"); simpl; [reflexivity|].
    apply dict_get_set_same.
  - destruct (startswith n "__"); simpl; [reflexivity|].
    apply dict_get_set_other. intros E. apply capability_name_inj in E.
    congruence.
Qed.

Lemma registered_private (items : namespace) (item_name : string) :
  startswith item_name "__" = true -> registered items item_name = None.
Proof.
  intros Hp. induction items as [|[n item] items IH]; [reflexivity|].
  simpl. rewrite IH. destruct item; [|reflexivity].
  destruct (String.eqb_spec n item_name) as [->|]; [|reflexivity].
  now rewrite Hp.
Qed.

Lemma registered_not_callable (items : namespace) (item_name : string) :
  (forall h, ~ In (item_name, Callable h) items) ->
  registered items item_name = None.
Proof.
  induction items as [|[n item] items IH]; intros Hno; [reflexivity|].
  simpl. rewrite IH by (intros h Hin; apply (Hno h); now right).
  destruct item as [h|]; [|reflexivity].
  destruct (String.eqb_spec n item_name) as [->|]; [|reflexivity].
  exfalso. apply (Hno h). now left.
Qed.

Lemma registered_callable (items : namespace) (item_name : string)
      (h : handle) :
  NoDup (map fst items) ->
  In (item_name, Callable h) items ->
  startswith item_name "__" = false ->
  registered items item_name = Some h.
Proof.
  intros Hnd Hin Hp.
  induction items as [|[n item] items IH]; [contradiction|].
  inversion Hnd as [|? ? Hnotin Hrest]; subst.
  destruct Hin as [E|Hin].
  - injection E as -> ->. simpl.
    rewrite registered_not_callable.
    + now rewrite String.eqb_refl, Hp.
    + intros h' Hin. apply Hnotin.
      now apply (in_map fst) in Hin.
  - simpl. now rewrite (IH Hrest Hin).
Qed.
End Loader.

(** C8, as the code has it. When [load_capability_module] has run over a
    unit whose [dir] lists each name once: every callable whose name does
    not start with two underscores is registered under ["<unit>.<symbol>"];
    a name that starts with two underscores, or under which the unit has
    nothing callable, leaves its qualified name as it was before the
    unit. A single leading underscore does not exclude a symbol. *)
Theorem load_capability_module_registers
    (module_name : string) (items : CapabilityLoader.namespace)
    (caps caps' : dict CapabilityLoader.handle) :
  NoDup (map fst items) ->
  CapabilityLoader.load_capability_module module_name (Some items) caps
  = Ok caps' ->
  forall item_name,
    (forall h,
        In (item_name, CapabilityLoader.Callable h) items ->
        startswith item_name "__" = false ->
        dict_get (CapabilityLoader.capability_name module_name item_name) caps'
        = Some h)
    /\ (startswith item_name "__" = true
        \/ (forall h, ~ In (item_name, CapabilityLoader.Callable h) items) ->
        dict_get (CapabilityLoader.capability_name module_name item_name) caps'
        = dict_get (CapabilityLoader.capability_name module_name item_name)
                   caps).
Proof.
  intros Hnd Hload item_name. injection Hload as <-.
  split.
  - intros h Hin Hp. rewrite register_items_get.
    now rewrite (registered_callable items item_name h Hnd Hin Hp).
  - intros [Hp|Hno]; rewrite register_items_get.
    + now rewrite registered_private.
    + now rewrite registered_not_callable.
Qed.

Lemma load_capability_module_registers_witness :
  dict_get (CapabilityLoader.capability_name "basic" "greet")
    (CapabilityLoader.register_items "basic" Scenario.unit_items [])
  = Some 1
  /\ dict_get (CapabilityLoader.capability_name "basic" "__loader__")
       (CapabilityLoader.register_items "basic" Scenario.unit_items [])
     = None.
Proof.
  assert (Hnd : NoDup (map fst Scenario.unit_items)).
  { repeat constructor; simpl; intuition discriminate. }
  split.
  - apply (proj1 (load_capability_module_registers "basic"
                    Scenario.unit_items [] _ Hnd eq_refl "greet") 1).
    + simpl. auto.
    + reflexivity.
  - apply (proj2 (load_capability_module_registers "basic"
                    Scenario.unit_items [] _ Hnd eq_refl "__loader__")).
    left. reflexivity.
Defined.

(** C8 as stated fails: a callable whose name starts with one underscore
    is registered. *)
Lemma single_underscore_is_registered :
  startswith "_helper" "_" = true
  /\ CapabilityLoader.load_capability_module "basic"
       (Some [("_helper", CapabilityLoader.Callable 7)]) []
     = Ok [("basic._helper", 7)].
Proof. split; reflexivity. Qed.

(** ** Self-reflection: the history and the suggestions *)

(** C4 fails on the code. [log_performance] has no check: whatever the
    task name and the execution time, the empty name and a negative time
    among them, the call returns and the history has grown by exactly that
    entry. No [SelfReflectionError] is raised anywhere in
    [self_reflection.py]. *)
Theorem log_performance_never_rejects
    (now : Z) (task_name : string) (result : value) (execution_time : float)
    (s : SelfReflection.reflection) :
  SelfReflection.performance_logs
    (SelfReflection.log_performance now task_name result execution_time s)
  = (SelfReflection.performance_logs s
     ++ [SelfReflection.mkLogEntry now task_name result execution_time])%list.
Proof. reflexivity. Qed.

(** The two calls of [test_log_performance_invalid_input]. *)
Example log_performance_empty_name :
  SelfReflection.performance_logs
    (SelfReflection.log_performance 0 "" (VStr "result") 1%float
       SelfReflection.init)
  = [SelfReflection.mkLogEntry 0 "" (VStr "result") 1%float].
Proof. reflexivity. Qed.

Example log_performance_negative_time :
  SelfReflection.performance_logs
    (SelfReflection.log_performance 0 "task" (VStr "result") (-1)%float
       SelfReflection.init)
  = [SelfReflection.mkLogEntry 0 "task" (VStr "result") (-1)%float].
Proof. reflexivity. Qed.

(** C10. With no project-management log, [suggest_improvements] returns,
    and what it returns contains the suggestion on the completion rate,
    whatever the performance history holds. *)
Theorem suggest_improvements_without_project_logs
    (s : SelfReflection.reflection) :
  SelfReflection.project_management_logs s = [] ->
  exists suggestions,
    SelfReflection.suggest_improvements s = Ok suggestions
    /\ In "Improve task completion rate in project management." suggestions.
Proof.
  intros Hempty.
  unfold SelfReflection.suggest_improvements,
    SelfReflection.analyze_project_management_performance.
  rewrite Hempty. cbn [bind SelfReflection.completion_rate
                         SelfReflection.total_tokens_used
                         SelfReflection.get_float SelfReflection.get_int].
  change (PrimFloat.ltb 0 0.8) with true.
  change (10000 <? 0)%Z with false.
  cbv iota.
  destruct (PrimFloat.ltb 1 _); eexists; (split; [reflexivity|]);
    simpl; auto.
Qed.

Lemma suggest_improvements_without_project_logs_witness :
  exists suggestions,
    SelfReflection.suggest_improvements
      (SelfReflection.log_performance 0 "basic.greet" (VStr "Hello") 2%float
         SelfReflection.init)
    = Ok suggestions
    /\ In "Improve task completion rate in project management." suggestions.
Proof.
  apply (suggest_improvements_without_project_logs
           (SelfReflection.log_performance 0 "basic.greet" (VStr "Hello")
              2%float SelfReflection.init)).
  reflexivity.
Defined.

(** ** The execution cycle *)

Section Cycle.
Import AICore.
Variable invoke : CapabilityLoader.handle -> result value.
Variable clock : nat -> Z.

Lemma execute_capability_state (name : string) (c : core) :
  let c' := snd (execute_capability invoke clock name c) in
  self_reflection c' = self_reflection c
  /\ running c' = running c
  /\ capability_registry c' = capability_registry c
  /\ performance_data c' = performance_data c
  /\ clock_reads c' = S (S (clock_reads c)).
Proof. cbv zeta. unfold execute_capability. simpl. auto. Qed.

(** The keyword [category] names no parameter of [log_performance]. *)
Lemma log_performance_call_rejected :
  bind_call SelfReflection.log_performance_params 3 ["category"]
  = Raise TypeError.
Proof. reflexivity. Qed.

Lemma execute_task_turn_state (name : string) (c : core) :
  execute_task_turn invoke clock name c
  = snd (execute_capability invoke clock name c).
Proof.
  unfold execute_task_turn. rewrite log_performance_call_rejected.
  now destruct (execute_capability invoke clock name c).
Qed.

Lemma execute_task_turns_state (names : list (string * value)) (c : core) :
  let c' := fold_left (fun c entry =>
                         execute_task_turn invoke clock (fst entry) c)
                      names c in
  self_reflection c' = self_reflection c
  /\ running c' = running c
  /\ capability_registry c' = capability_registry c
  /\ performance_data c' = performance_data c
  /\ clock_reads c' = (2 * List.length names + clock_reads c)%nat.
Proof.
  cbv zeta. revert c. induction names as [|entry names IH]; intros c.
  - simpl. auto.
  - cbn [fold_left]. rewrite execute_task_turn_state.
    destruct (execute_capability_state (fst entry) c)
      as (Hs & Hr & Hg & Hp & Hc).
    destruct (IH (snd (execute_capability invoke clock (fst entry) c)))
      as (Hs' & Hr' & Hg' & Hp' & Hc').
    rewrite Hs', Hr', Hg', Hp', Hc', Hs, Hr, Hg, Hp, Hc.
    repeat split. simpl. lia.
Qed.
End Cycle.

(** C2 fails on the code. [execute_task_cycle] calls [log_performance]
    with the keyword [category], which the method of [self_reflection.py]
    does not take: every call raises [TypeError] before the body runs, the
    [except] clause of the cycle swallows it, and the reflection history
    after the cycle is the one before it. Every listed capability is
    attempted (two clock readings each), none is recorded. *)
Theorem execute_task_cycle_records_nothing
    (invoke : CapabilityLoader.handle -> result value) (clock : nat -> Z)
    (c : AICore.core) :
  AICore.self_reflection (AICore.execute_task_cycle invoke clock c)
  = AICore.self_reflection c
  /\ AICore.performance_data (AICore.execute_task_cycle invoke clock c)
     = AICore.performance_data c
  /\ AICore.clock_reads (AICore.execute_task_cycle invoke clock c)
     = (2 * List.length
              (CapabilityRegistry.list_capabilities
                 (AICore.capability_registry c))
        + AICore.clock_reads c)%nat.
Proof.
  unfold AICore.execute_task_cycle.
  destruct (execute_task_turns_state invoke clock
              (CapabilityRegistry.list_capabilities
                 (AICore.capability_registry c)) c)
    as (Hs & _ & _ & Hp & Hc).
  auto.
Qed.

(** [greet] succeeds and [fail_always] raises: one cycle, no entry. *)
Example cycle_of_two_capabilities :
  dict_keys (CapabilityRegistry.list_capabilities
               (AICore.capability_registry Scenario.fresh_core))
  = ["basic.greet"; "basic.fail_always"]
  /\ SelfReflection.performance_logs
       (AICore.self_reflection
          (AICore.execute_task_cycle Scenario.invoke Scenario.ticking_clock
             Scenario.fresh_core))
     = [].
Proof. split; reflexivity. Qed.

(** [AICore(capability_dir)] itself cannot be built with this
    [SelfReflection]: its constructor takes one argument and is given
    two. *)
Example core_constructor_raises (r : CapabilityRegistry.registry) :
  AICore.init r = Raise TypeError.
Proof. reflexivity. Qed.

(** ** The insight dispatcher *)

Section Dispatcher.
Import AICore.
Variable handlers : call -> result unit.

(** The loop over the areas for improvement never raises: each turn
    swallows what its test or its handler raises. *)
Lemma handle_improvements_returns (improvements : list value) :
  snd (handle_improvements handlers improvements) = Ok tt.
Proof.
  induction improvements as [|i rest IH]; [reflexivity|].
  cbn [handle_improvements]. unfold and_then, handle_improvement.
  exact IH.
Qed.


(** A failure of the trend handler ends [act_on_insights]. *)
Lemma failing_trend_handler_aborts (analysis trend : value) (e : exn) :
  handle_trend handlers analysis
  = ([address_decreasing_performance trend], Raise e) ->
  act_on_insights handlers analysis
  = ([address_decreasing_performance trend], Raise e).
Proof. intros H. unfold act_on_insights. now rewrite H. Qed.

(** A failure of the anomaly handler ends it too, once the trend is
    dealt with. *)
Lemma failing_anomaly_handler_aborts (analysis summary anomalies : value)
      (calls : list call) (e : exn) :
  handle_trend handlers analysis = (calls, Ok tt) ->
  handle_anomalies handlers analysis
  = ([address_anomalies summary anomalies], Raise e) ->
  act_on_insights handlers analysis
  = ((calls ++ [address_anomalies summary anomalies])%list, Raise e).
Proof.
  intros Ht Ha. unfold act_on_insights. now rewrite Ht, Ha.
Qed.
End Dispatcher.

(** C7 fails on the code. Only the loop over the areas for improvement
    has a [try]; the trend handler and the anomaly handler are called
    outside any. With the handlers of the source, a report whose anomaly
    list holds a string makes [address_anomalies] raise [TypeError] in
    [sum(anomalies)], and [act_on_insights] ends there: the handler for the
    matched improvement is never invoked. With a trend handler that raises,
    neither the anomalies nor the improvements are looked at. A failure in
    the improvement loop, in contrast, is caught and the later improvement
    is still handled. *)
Theorem handler_failure_outside_loop_aborts :
  AICore.act_on_insights AICore.handler Scenario.report_with_bad_anomalies
  = ([AICore.address_anomalies (VDict []) (VList [VStr "spike"])],
     Raise TypeError)
  /\ AICore.act_on_insights Scenario.failing_trend_handler
       Scenario.report_with_all_insights
     = ([AICore.address_decreasing_performance
           (VDict [("trend_direction", VStr "decreasing");
                   ("trend_strength", VFloat 0.6%float)])],
        Raise (UserError "trend"))
  /\ AICore.act_on_insights Scenario.failing_optimize_handler
       Scenario.report_with_all_insights
     = ([AICore.address_decreasing_performance
           (VDict [("trend_direction", VStr "decreasing");
                   ("trend_strength", VFloat 0.6%float)]);
         AICore.address_anomalies (VDict [])
           (VList [VBool true; VBool false]);
         AICore.optimize_slow_tasks
           (VStr "Optimize performance for tasks: parse");
         AICore.improve_capability_reliability
           (VStr "Improve reliability of capabilities: fetch")],
        Ok tt).
Proof. repeat split; vm_compute; reflexivity. Qed.

(** ** The core loop and [stop()] *)

Section Loop.
Import AICore.
Variable invoke : CapabilityLoader.handle -> result value.
Variable clock : nat -> Z.
Variable handlers : call -> result unit.





(** While the two readings are less than 60 seconds apart, one step of
    the wait is one more reading of the clock, flag or no flag. *)
Lemma step_wait_polls (b : bool) (m : machine) (start_time end_time : Z) :
  pc m = WaitLoop start_time end_time ->
  PrimFloat.ltb (get_time_difference start_time end_time) (float_of_Z 60)
  = true ->
  pc (AICore.step invoke clock handlers b m) = WaitLoop start_time (clock (clock_reads (state m)))
  /\ clock_reads (state (AICore.step invoke clock handlers b m)) = S (clock_reads (state m)).
Proof.
  intros Hpc Hlt. unfold AICore.step. rewrite Hpc, Hlt.
  destruct b; split; reflexivity.
Qed.

End Loop.




(** * Further properties of the code *)

(** ** Persistence: logs, file names, the latest snapshot *)

Section MorePersistence.
Import DataPersistence Logs.

Lemma put_file_fresh (place : nat) (name : string) (content : option value)
      (fs : directory) :
  ~ In name (map fst fs) ->
  put_file place name content fs = insert_at place (name, content) fs.
Proof.
  intros Hfresh. unfold put_file.
  destruct (existsb (String.eqb name) (map fst fs)) eqn:E; [|reflexivity].
  exfalso. apply Hfresh. apply existsb_exists in E as (n & Hin & Hn).
  apply String.eqb_eq in Hn. now subst.
Qed.

Lemma insert_at_Permutation (place : nat) (entry : string * option value)
      (fs : directory) :
  Permutation (entry :: fs) (insert_at place entry fs).
Proof.
  revert fs. induction place as [|p IH]; intros [|x fs]; simpl;
    try apply Permutation_refl.
  eapply Permutation_trans; [apply perm_swap|]. now apply perm_skip.
Qed.

Lemma replace_file_names (name : string) (content : option value)
      (fs : directory) :
  map fst (replace_file name content fs) = map fst fs.
Proof.
  induction fs as [|[n c] fs IH]; simpl; [reflexivity|].
  destruct (String.eqb name n); simpl; [reflexivity | now rewrite IH].
Qed.

Lemma replace_file_twice (name : string) (a b : option value)
      (fs : directory) :
  replace_file name b (replace_file name a fs) = replace_file name b fs.
Proof.
  induction fs as [|[n c] fs IH]; simpl; [reflexivity|].
  destruct (String.eqb_spec name n) as [->|Hne]; simpl.
  - now rewrite String.eqb_refl.
  - destruct (String.eqb_spec name n); [congruence | now rewrite IH].
Qed.

Lemma insert_at_names (place : nat) (name : string) (content : option value)
      (fs : directory) :
  existsb (String.eqb name) (map fst (insert_at place (name, content) fs))
  = true.
Proof.
  revert fs. induction place as [|p IH]; intros [|[n c] fs]; simpl;
    rewrite ?String.eqb_refl; try reflexivity.
  rewrite IH. apply orb_true_r.
Qed.

Lemma replace_inserted (place : nat) (name : string) (a b : option value)
      (fs : directory) :
  existsb (String.eqb name) (map fst fs) = false ->
  replace_file name b (insert_at place (name, a) fs)
  = insert_at place (name, b) fs.
Proof.
  revert fs. induction place as [|p IH]; intros [|[n c] fs]; simpl;
    rewrite ?String.eqb_refl; try reflexivity.
  intros H. apply orb_false_iff in H as [Hn Hrest].
  rewrite Hn. now rewrite IH.
Qed.

Lemma put_file_twice (p1 p2 : nat) (name : string) (a b : option value)
      (fs : directory) :
  put_file p2 name b (put_file p1 name a fs) = put_file p1 name b fs.
Proof.
  unfold put_file.
  destruct (existsb (String.eqb name) (map fst fs)) eqn:E.
  - rewrite replace_file_names, E. apply replace_file_twice.
  - rewrite insert_at_names. now apply replace_inserted.
Qed.

Lemma load_log_files_app (a b : directory) (acc : list value) :
  load_log_files (a ++ b)%list acc =
  (l <- load_log_files a acc ;; load_log_files b l).
Proof.
  revert acc. induction a as [|[f c] a IH]; intros acc; simpl; [reflexivity|].
  destruct (log_file f); [|apply IH].
  destruct c as [data|]; [|reflexivity].
  destruct (is_compatible_version data) as [[|]|e]; simpl;
    [|apply IH|reflexivity].
  destruct (get data "logs" (VList [])) as [entries|]; simpl; [|reflexivity].
  destruct (iter entries); simpl; [apply IH|reflexivity].
Qed.

Lemma saved_file_is_log_file (stamp : string) :
  log_file ("logs_" ++ stamp ++ ".json") = true.
Proof.
  unfold log_file, startswith.
  rewrite prefix_append. rewrite <- append_assoc. now rewrite endswith_append.
Qed.

Lemma log_name_is_no_performance_file (stamp : string) :
  performance_file ("logs_" ++ stamp ++ ".json") = false.
Proof. reflexivity. Qed.

Lemma performance_name_is_no_log_file (stamp : string) :
  log_file ("performance_" ++ stamp ++ ".json") = false.
Proof. reflexivity. Qed.

(** A file whose name the loop passes over changes nothing of what the
    loop returns, wherever the listing shows it and whatever it holds. *)
Lemma load_performance_files_other_file (place : nat) (name : string)
      (content : option value) (fs : directory) :
  performance_file name = false ->
  forall acc,
    load_performance_files (put_file place name content fs) acc
    = load_performance_files fs acc.
Proof.
  intros Hname. unfold put_file.
  destruct (existsb (String.eqb name) (map fst fs)).
  - induction fs as [|[n c] fs IH]; intros acc; simpl; [reflexivity|].
    destruct (String.eqb_spec name n) as [->|Hne]; simpl.
    + now rewrite Hname.
    + destruct (performance_file n); [|apply IH].
      destruct c as [data|]; [|reflexivity].
      destruct (is_compatible_version data) as [[|]|e]; simpl;
        [|apply IH|reflexivity].
      destruct (get data "performance_data" (VDict [])); simpl;
        [apply IH|reflexivity].
  - revert fs. induction place as [|p IH]; intros [|[n c] fs] acc; simpl;
      rewrite ?Hname; try reflexivity.
    destruct (performance_file n); [|apply IH].
    destruct c as [data|]; [|reflexivity].
    destruct (is_compatible_version data) as [[|]|e]; simpl;
      [|apply IH|reflexivity].
    destruct (get data "performance_data" (VDict [])); simpl;
      [apply IH|reflexivity].
Qed.

Lemma load_log_files_other_file (place : nat) (name : string)
      (content : option value) (fs : directory) :
  log_file name = false ->
  forall acc,
    load_log_files (put_file place name content fs) acc
    = load_log_files fs acc.
Proof.
  intros Hname. unfold put_file.
  destruct (existsb (String.eqb name) (map fst fs)).
  - induction fs as [|[n c] fs IH]; intros acc; simpl; [reflexivity|].
    destruct (String.eqb_spec name n) as [->|Hne]; simpl.
    + now rewrite Hname.
    + destruct (log_file n); [|apply IH].
      destruct c as [data|]; [|reflexivity].
      destruct (is_compatible_version data) as [[|]|e]; simpl;
        [|apply IH|reflexivity].
      destruct (get data "logs" (VList [])) as [entries|]; simpl;
        [|reflexivity].
      destruct (iter entries); simpl; [apply IH|reflexivity].
  - revert fs. induction place as [|p IH]; intros [|[n c] fs] acc; simpl;
      rewrite ?Hname; try reflexivity.
    destruct (log_file n); [|apply IH].
    destruct c as [data|]; [|reflexivity].
    destruct (is_compatible_version data) as [[|]|e]; simpl;
      [|apply IH|reflexivity].
    destruct (get data "logs" (VList [])) as [entries|]; simpl;
      [|reflexivity].
    destruct (iter entries); simpl; [apply IH|reflexivity].
Qed.

Lemma load_log_files_acc (fs : directory) (acc : list value) :
  load_log_files fs acc
  = (l <- load_log_files fs [] ;; Ok (acc ++ l)%list).
Proof.
  revert acc. induction fs as [|[f c] fs IH]; intros acc; simpl.
  - now rewrite app_nil_r.
  - destruct (log_file f); [|apply IH].
    destruct c as [data|]; [|reflexivity].
    destruct (is_compatible_version data) as [[|]|e]; simpl;
      [|apply IH|reflexivity].
    destruct (get data "logs" (VList [])) as [entries|]; simpl;
      [|reflexivity].
    destruct (iter entries) as [items|]; simpl; [|reflexivity].
    rewrite (IH (acc ++ items)%list), (IH items).
    destruct (load_log_files fs []); simpl; [|reflexivity].
    now rewrite <- app_assoc.
Qed.

(** What one file contributes, then what the rest contributes. *)
Lemma load_log_files_cons (x : string * option value) (fs : directory) :
  load_log_files (x :: fs) []
  = (c <- load_log_files [x] [] ;;
     l <- load_log_files fs [] ;; Ok (c ++ l)%list).
Proof.
  change (x :: fs) with ([x] ++ fs)%list.
  rewrite load_log_files_app.
  destruct (load_log_files [x] []) as [c|]; cbn [bind]; [|reflexivity].
  apply load_log_files_acc.
Qed.

(** The order of the listing only rearranges what [load_logs] returns. *)
Lemma load_log_files_Permutation (fs fs' : directory) :
  Permutation fs fs' ->
  forall l,
    load_log_files fs [] = Ok l ->
    exists l', load_log_files fs' [] = Ok l' /\ Permutation l l'.
Proof.
  induction 1 as [|x fs fs' Hperm IH|x y fs|fs fs1 fs2 H1 IH1 H2 IH2];
    intros l Hl.
  - exists l. split; [exact Hl | apply Permutation_refl].
  - rewrite load_log_files_cons in Hl. rewrite load_log_files_cons.
    destruct (load_log_files [x] []) as [c|]; [|discriminate].
    cbn [bind] in *.
    destruct (load_log_files fs []) as [l0|]; [|discriminate].
    injection Hl as <-.
    destruct (IH l0 eq_refl) as (l0' & -> & Hp).
    exists (c ++ l0')%list. split; [reflexivity|].
    now apply Permutation_app_head.
  - rewrite load_log_files_cons in Hl.
    rewrite (load_log_files_cons x fs) in Hl.
    rewrite load_log_files_cons, (load_log_files_cons y fs).
    destruct (load_log_files [y] []) as [cy|]; [|discriminate].
    cbn [bind] in *.
    destruct (load_log_files [x] []) as [cx|]; [|discriminate].
    cbn [bind] in *.
    destruct (load_log_files fs []) as [l0|]; [|discriminate].
    cbn [bind] in *. injection Hl as <-.
    exists (cx ++ cy ++ l0)%list. split; [reflexivity|].
    apply Permutation_app_swap_app.
  - destruct (IH1 l Hl) as (l1 & Hl1 & Hp1).
    destruct (IH2 l1 Hl1) as (l2 & Hl2 & Hp2).
    exists l2. split; [exact Hl2|]. eapply Permutation_trans; eassumption.
Qed.

Lemma load_performance_files_bad_file (fs : directory) (f : string)
      (c : option value) :
  In (f, c) fs ->
  performance_file f = true ->
  c = None \/ (exists v, c = Some v /\ forall d, v <> VDict d) ->
  forall acc, is_ok (load_performance_files fs acc) = false.
Proof.
  intros Hin Hf Hbad.
  induction fs as [|[f' c'] fs IH]; intros acc; [contradiction|].
  destruct Hin as [E|Hin].
  - injection E as -> ->. simpl. rewrite Hf.
    destruct Hbad as [->|(v & -> & Hv)]; [reflexivity|].
    destruct v; try reflexivity. now elim (Hv d).
  - simpl. destruct (performance_file f'); [|auto].
    destruct c' as [data|]; [|reflexivity].
    destruct (is_compatible_version data) as [[|]|e]; simpl;
      [|auto|reflexivity].
    destruct (get data "performance_data" (VDict [])); simpl;
      [auto|reflexivity].
Qed.

End MorePersistence.

(** X1. Logs saved under a file name that is new to the directory come
    back from [load_logs] together with everything the directory already
    held, in whatever order the directory is listed afterwards: the load
    returns the entries of the old load and the saved entries, rearranged
    at most. *)
Theorem save_logs_then_load_logs
    (place : nat) (stamp : string) (items : list value)
    (fs fs' listing : DataPersistence.directory) (l : list value) :
  ~ In ("logs_" ++ stamp ++ ".json") (map fst fs) ->
  Logs.load_logs true fs = Ok l ->
  Logs.save_logs
    (DataPersistence.mkAttempt DataPersistence.Written place)
    stamp (VList items) fs = (fs', Ok tt) ->
  Permutation fs' listing ->
  exists l',
    Logs.load_logs true listing = Ok l' /\ Permutation (l ++ items)%list l'.
Proof.
  intros Hfresh Hload Hsave Hlisting.
  unfold Logs.save_logs, DataPersistence.write_attempt in Hsave.
  cbn in Hsave. injection Hsave as <-.
  unfold DataPersistence.write_file in Hlisting.
  rewrite (put_file_fresh _ _ _ _ Hfresh) in Hlisting.
  set (entry := ("logs_" ++ stamp ++ ".json",
                 Some (Logs.log_snapshot (VList items)))) in *.
  assert (Hlast : Permutation (fs ++ [entry])%list listing).
  { eapply Permutation_trans; [|exact Hlisting].
    eapply Permutation_trans; [|apply insert_at_Permutation].
    apply Permutation_sym, Permutation_cons_append. }
  unfold Logs.load_logs in *.
  cbn [DataPersistence.ensure_data_directory bind] in *.
  assert (Hall : Logs.load_log_files (fs ++ [entry])%list []
                 = Ok (l ++ items)%list).
  { rewrite load_log_files_app.
    destruct (Logs.load_log_files fs []) as [l0|]; [|discriminate].
    injection Hload as ->.
    unfold entry. cbn [bind Logs.load_log_files].
    rewrite saved_file_is_log_file. reflexivity. }
  destruct (load_log_files_Permutation _ _ Hlast _ Hall) as (l' & Hl' & Hp).
  exists l'. rewrite Hl'. split; [reflexivity | exact Hp].
Qed.

Lemma save_logs_then_load_logs_witness :
  exists l',
    Logs.load_logs true
      (("logs_20240102_000000.json",
        Some (Logs.log_snapshot (VList [Cases.other_log])))
       :: Cases.mixed_directory)
    = Ok l'
    /\ Permutation ([Cases.one_log] ++ [Cases.other_log])%list l'.
Proof.
  apply (save_logs_then_load_logs 5 "20240102_000000" [Cases.other_log]
           Cases.mixed_directory _ _ [Cases.one_log]
           ltac:(simpl; intuition discriminate) eq_refl eq_refl).
  apply Permutation_sym.
  exact (insert_at_Permutation 5
           ("logs_20240102_000000.json",
            Some (Logs.log_snapshot (VList [Cases.other_log])))
           Cases.mixed_directory).
Defined.

(** X2. Two saves of performance data that fall into the same second go
    to the same file: the directory after both is the one the second save
    alone would have produced, so the first snapshot is lost. *)
Theorem same_second_saves_overwrite
    (place place' : nat) (stamp : string) (first second : value)
    (fs fs1 fs2 : DataPersistence.directory) :
  DataPersistence.save_performance_data
    (DataPersistence.mkAttempt DataPersistence.Written place)
    stamp first fs = (fs1, Ok tt) ->
  DataPersistence.save_performance_data
    (DataPersistence.mkAttempt DataPersistence.Written place')
    stamp second fs1 = (fs2, Ok tt) ->
  DataPersistence.save_performance_data
    (DataPersistence.mkAttempt DataPersistence.Written place)
    stamp second fs = (fs2, Ok tt).
Proof.
  unfold DataPersistence.save_performance_data,
    DataPersistence.write_attempt, DataPersistence.write_file.
  cbn [DataPersistence.outcome DataPersistence.place reraise_as].
  intros E1 E2. injection E1 as <-. injection E2 as <-.
  now rewrite put_file_twice.
Qed.

Lemma same_second_saves_overwrite_witness :
  DataPersistence.save_performance_data
    (DataPersistence.mkAttempt DataPersistence.Written 0)
    "20240101_000000" (VInt 2) []
  = ([("performance_20240101_000000.json",
       Some (DataPersistence.snapshot (VInt 2)))], Ok tt).
Proof.
  exact (same_second_saves_overwrite 0 3 "20240101_000000" (VInt 1) (VInt 2)
           []
           [("performance_20240101_000000.json",
             Some (DataPersistence.snapshot (VInt 1)))]
           [("performance_20240101_000000.json",
             Some (DataPersistence.snapshot (VInt 2)))]
           eq_refl eq_refl).
Defined.

(** X3. Logs and performance data share the directory without touching
    each other: saving logs changes nothing of what
    [load_performance_data] returns, and saving performance data nothing
    of what [load_logs] returns, whether the save returns or raises. *)
Theorem logs_and_performance_data_are_separate
    (readable : bool) (a : DataPersistence.attempt) (stamp : string)
    (data : value) (fs : DataPersistence.directory) :
  DataPersistence.load_performance_data readable
    (fst (Logs.save_logs a stamp data fs))
  = DataPersistence.load_performance_data readable fs
  /\ Logs.load_logs readable
       (fst (DataPersistence.save_performance_data a stamp data fs))
     = Logs.load_logs readable fs.
Proof.
  unfold Logs.save_logs, DataPersistence.save_performance_data,
    DataPersistence.write_attempt, DataPersistence.write_file.
  split.
  - unfold DataPersistence.load_performance_data.
    destruct readable; [|reflexivity].
    cbn [DataPersistence.ensure_data_directory bind].
    destruct (DataPersistence.outcome a); cbn [fst]; try reflexivity;
      now rewrite (load_performance_files_other_file _ _ _ _
                     (log_name_is_no_performance_file stamp)).
  - unfold Logs.load_logs.
    destruct readable; [|reflexivity].
    cbn [DataPersistence.ensure_data_directory bind].
    destruct (DataPersistence.outcome a); cbn [fst]; try reflexivity;
      now rewrite (load_log_files_other_file _ _ _ _
                     (performance_name_is_no_log_file stamp)).
Qed.

Lemma logs_and_performance_data_are_separate_witness :
  DataPersistence.load_performance_data true
    (fst (Logs.save_logs
            (DataPersistence.mkAttempt DataPersistence.Torn 1)
            "20240102_000000" (VList [Cases.other_log])
            Cases.mixed_directory))
  = Ok [VInt 5].
Proof.
  exact (eq_trans
           (proj1 (logs_and_performance_data_are_separate true
                     (DataPersistence.mkAttempt DataPersistence.Torn 1)
                     "20240102_000000" (VList [Cases.other_log])
                     Cases.mixed_directory))
           eq_refl).
Defined.

(** X4. [load_performance_data] is all or nothing: one performance file
    that cannot be read or parsed, or whose content is not a JSON object,
    makes the whole load raise [DataPersistenceError], whatever the other
    files hold. *)
Theorem load_performance_data_fails_on_bad_file
    (readable : bool) (fs : DataPersistence.directory) (f : string)
    (c : option value) :
  In (f, c) fs ->
  DataPersistence.performance_file f = true ->
  c = None \/ (exists v, c = Some v /\ forall d, v <> VDict d) ->
  DataPersistence.load_performance_data readable fs
  = Raise DataPersistenceError.
Proof.
  intros Hin Hf Hbad. unfold DataPersistence.load_performance_data.
  destruct readable; [|reflexivity].
  cbn [DataPersistence.ensure_data_directory bind].
  pose proof (load_performance_files_bad_file fs f c Hin Hf Hbad []) as H.
  now destruct (DataPersistence.load_performance_files fs []).
Qed.

Lemma load_performance_data_fails_on_bad_file_witness :
  DataPersistence.load_performance_data true
    (Cases.mixed_directory
     ++ [("performance_20240103_000000.json", Some (VList [VInt 1]))])%list
  = Raise DataPersistenceError.
Proof.
  apply (load_performance_data_fails_on_bad_file true _
           "performance_20240103_000000.json" (Some (VList [VInt 1]))).
  - simpl. auto.
  - reflexivity.
  - right. exists (VList [VInt 1]). split; [reflexivity | discriminate].
Defined.



(** ** The loader: scanning the directory, executing by name *)

Section MoreLoader.
Import CapabilityLoader LoaderCalls.

Lemma load_files_app (a b : list (string * option namespace))
      (caps : dict handle) :
  load_files (a ++ b)%list caps
  = (caps' <- load_files a caps ;; load_files b caps').
Proof.
  revert caps. induction a as [|[f m] a IH]; intros caps; simpl;
    [reflexivity|].
  destruct (endswith f ".py" && negb (startswith f "__")); [|apply IH].
  destruct (load_capability_module (drop_last 3 f) m caps); simpl;
    [apply IH | reflexivity].
Qed.

Lemma load_files_broken (files : list (string * option namespace))
      (f : string) :
  In (f, None) files ->
  loadable f = true ->
  forall caps, is_ok (load_files files caps) = false.
Proof.
  intros Hin Hf.
  induction files as [|[f' m] files IH]; intros caps; [contradiction|].
  destruct Hin as [E|Hin].
  - injection E as -> ->. simpl. unfold loadable in Hf. now rewrite Hf.
  - simpl. destruct (endswith f' ".py" && negb (startswith f' "__")); [|auto].
    destruct (load_capability_module (drop_last 3 f') m caps); simpl;
      [auto | reflexivity].
Qed.
End MoreLoader.

(** X6. Loading is fail-fast: one file that ends in [.py], does not start
    with two underscores and cannot be imported makes [load_capabilities]
    raise the loader's [CapabilityError], whatever the other files are. *)
Theorem load_capabilities_fails_fast
    (files : list (string * option CapabilityLoader.namespace))
    (f : string) (caps : dict CapabilityLoader.handle) :
  In (f, None) files ->
  LoaderCalls.loadable f = true ->
  CapabilityLoader.load_capabilities (Some files) caps
  = Raise LoaderCapabilityError.
Proof.
  intros Hin Hf. unfold CapabilityLoader.load_capabilities.
  pose proof (load_files_broken files f Hin Hf caps) as H.
  now destruct (CapabilityLoader.load_files files caps).
Qed.

Lemma load_capabilities_fails_fast_witness :
  CapabilityLoader.load_capabilities (Some Cases.broken_files) []
  = Raise LoaderCapabilityError.
Proof.
  apply (load_capabilities_fails_fast Cases.broken_files "broken.py" []).
  - simpl. auto.
  - reflexivity.
Defined.

(** X7. A file whose name does not end in [.py] or starts with two
    underscores is passed over, importable or not: with or without it the
    loader ends with the same capabilities or the same failure. *)
Theorem load_capabilities_skips_other_files
    (before after : list (string * option CapabilityLoader.namespace))
    (f : string) (m : option CapabilityLoader.namespace)
    (caps : dict CapabilityLoader.handle) :
  LoaderCalls.loadable f = false ->
  CapabilityLoader.load_capabilities (Some (before ++ (f, m) :: after)%list)
    caps
  = CapabilityLoader.load_capabilities (Some (before ++ after)%list) caps.
Proof.
  intros Hf. unfold CapabilityLoader.load_capabilities.
  rewrite !load_files_app.
  destruct (CapabilityLoader.load_files before caps) as [caps'|];
    cbn [bind]; [|reflexivity].
  cbn [CapabilityLoader.load_files]. unfold LoaderCalls.loadable in Hf.
  now rewrite Hf.
Qed.

Lemma load_capabilities_skips_other_files_witness :
  CapabilityLoader.load_capabilities (Some Cases.capability_files) []
  = CapabilityLoader.load_capabilities
      (Some [("basic.py", Some Scenario.unit_items); ("README.md", None)]) [].
Proof.
  exact (load_capabilities_skips_other_files
           [("basic.py", Some Scenario.unit_items)] [("README.md", None)]
           "__init__.py" None [] eq_refl).
Defined.

(** X8. The loader's [execute_capability] returns a value exactly when
    the name is loaded and the call returns it; an unknown name and every
    failure of the call alike come out as the loader's
    [CapabilityError]. *)
Theorem loader_execute_capability_outcome
    (invoke : CapabilityLoader.handle -> result value)
    (caps : dict CapabilityLoader.handle) (name : string) :
  (forall v,
      LoaderCalls.execute_capability invoke caps name = Ok v
      <-> exists h, dict_get name caps = Some h /\ invoke h = Ok v)
  /\ (forall e,
        LoaderCalls.execute_capability invoke caps name = Raise e ->
        e = LoaderCapabilityError).
Proof.
  unfold LoaderCalls.execute_capability, CapabilityLoader.get_capability.
  destruct (dict_get name caps) as [h|].
  - split.
    + intros v. split.
      * intros H. exists h. split; [reflexivity|].
        destruct (invoke h) as [v'|e]; [exact H|].
        destruct e; discriminate.
      * intros (h' & E & Hv). injection E as <-. now rewrite Hv.
    + intros e. destruct (invoke h) as [v'|e']; [discriminate|].
      destruct e'; intros E; injection E as <-; reflexivity.
  - split.
    + intros v. split; [discriminate | intros (h & E & _); discriminate].
    + intros e E. now injection E as <-.
Qed.

(** ** The registry: removal, lookup, listing, rebuilding *)

Section MoreDict.
Context {V : Type}.
Implicit Types (d : dict V) (k : string) (v : V).

Lemma dict_set_fresh k v d :
  ~ In k (dict_keys d) -> dict_set k v d = (d ++ [(k, v)])%list.
Proof.
  induction d as [|[k' v'] d IH]; simpl; intros Hfresh; [reflexivity|].
  destruct (String.eqb_spec k k') as [->|Hne]; [tauto|].
  rewrite IH; [reflexivity | tauto].
Qed.

Lemma dict_get_del_same k d :
  NoDup (dict_keys d) -> dict_get k (dict_del k d) = None.
Proof.
  induction d as [|[k' v'] d IH]; simpl; intros Hd; [reflexivity|].
  inversion Hd as [|? ? Hnotin Hrest]; subst.
  destruct (String.eqb_spec k k') as [->|Hne]; simpl.
  - destruct (dict_get k' d) eqn:E; [|reflexivity].
    exfalso. apply Hnotin. apply dict_get_In. congruence.
  - destruct (String.eqb_spec k k'); [congruence | auto].
Qed.

Lemma dict_get_del_other k k' d :
  k' <> k -> dict_get k' (dict_del k d) = dict_get k' d.
Proof.
  intros Hne. induction d as [|[k0 v0] d IH]; simpl; [reflexivity|].
  destruct (String.eqb_spec k k0) as [->|Hk]; simpl.
  - destruct (String.eqb_spec k' k0); [congruence | reflexivity].
  - destruct (String.eqb_spec k' k0); [reflexivity | exact IH].
Qed.

Lemma dict_get_app_fresh k d d' :
  ~ In k (dict_keys d) -> dict_get k (d ++ d')%list = dict_get k d'.
Proof.
  induction d as [|[k0 v0] d IH]; simpl; intros Hfresh; [reflexivity|].
  destruct (String.eqb_spec k k0) as [->|Hk]; [tauto | apply IH; tauto].
Qed.
End MoreDict.

Section MoreRegistry.
Import DataPersistence CapabilityRegistry Listing.

Lemma comprehension_in_order (caps : dict capability) (acc : dict value) :
  NoDup (dict_keys acc ++ dict_keys caps) ->
  fold_left (fun acc entry =>
               dict_set (fst entry) (description (snd entry)) acc) caps acc
  = (acc ++ map listed caps)%list.
Proof.
  revert acc. induction caps as [|[k c] caps IH]; intros acc Hnd; simpl.
  - now rewrite app_nil_r.
  - assert (Hfresh : ~ In k (dict_keys acc)).
    { apply NoDup_remove_2 in Hnd. intros Hin. apply Hnd.
      apply in_or_app. now left. }
    rewrite (dict_set_fresh k (description c) acc Hfresh).
    rewrite IH.
    + now rewrite <- app_assoc.
    + unfold dict_keys in *. rewrite map_app. simpl.
      rewrite <- app_assoc. exact Hnd.
Qed.

Lemma load_entries_records (loader : dict CapabilityLoader.handle)
      (caps acc : dict capability) :
  NoDup (dict_keys acc ++ dict_keys caps) ->
  (forall n c, In (n, c) caps -> dict_get n loader = Some (function c)) ->
  load_entries loader (map record_of caps) acc = Ok (acc ++ caps)%list.
Proof.
  revert acc. induction caps as [|[k c] caps IH]; intros acc Hnd Hloader.
  - simpl. now rewrite app_nil_r.
  - assert (Hfresh : ~ In k (dict_keys acc)).
    { apply NoDup_remove_2 in Hnd. intros Hin. apply Hnd.
      apply in_or_app. now left. }
    cbn [map load_entries]. unfold record_of at 1. cbn.
    unfold CapabilityLoader.get_capability.
    rewrite (Hloader k c (or_introl eq_refl)). cbn.
    rewrite (dict_set_fresh k _ acc Hfresh).
    destruct c as [desc f]. cbn.
    rewrite IH.
    + now rewrite <- app_assoc.
    + unfold dict_keys in *. rewrite map_app. simpl.
      rewrite <- app_assoc. exact Hnd.
    + intros n c Hin. apply Hloader. now right.
Qed.

Lemma load_entries_unknown (loader : dict CapabilityLoader.handle)
      (stored_data : list value) (n : string) (c : capability) :
  In (record_of (n, c)) stored_data ->
  dict_get n loader = None ->
  forall caps, is_ok (load_entries loader stored_data caps) = false.
Proof.
  intros Hin Hn.
  induction stored_data as [|entry rest IH]; intros caps; [contradiction|].
  destruct Hin as [->|Hin].
  - cbn. unfold CapabilityLoader.get_capability. now rewrite Hn.
  - cbn [load_entries].
    destruct (get entry "type" VNone) as [type|]; cbn [bind]; [|reflexivity].
    destruct (eq_str type "capability"); [|auto].
    destruct (subscript entry "name") as [name|]; cbn [bind]; [|reflexivity].
    destruct (subscript entry "description"); cbn [bind]; [|reflexivity].
    destruct (loader_lookup loader name); cbn [bind]; [|reflexivity].
    destruct name; auto.
Qed.

Lemma strip_blank (s : string) :
  forallb isspace (list_ascii_of_string s) = true -> strip s = EmptyString.
Proof.
  unfold strip. induction s as [|c s IH]; simpl; [reflexivity|].
  intros H. apply andb_prop in H as [Hc Hs]. rewrite Hc. auto.
Qed.
End MoreRegistry.

(** X9. [remove_capability] of a name the catalog does not hold returns
    [False] and leaves the registry and the disk as they are. Of a name it
    holds, with a disk that takes the write, it returns [True]; afterwards
    [get_capability] of the name raises [CapabilityError], the listing has
    no entry for it, and every other name is found as before. *)
Theorem remove_capability_outcome
    (d : CapabilityRegistry.disk) (name : string)
    (r : CapabilityRegistry.registry) :
  NoDup (dict_keys (CapabilityRegistry.capabilities r)) ->
  (dict_mem name (CapabilityRegistry.capabilities r) = false ->
   CapabilityRegistry.remove_capability d name r = (r, Ok false))
  /\ (dict_mem name (CapabilityRegistry.capabilities r) = true ->
      CapabilityRegistry.disk_ok d = true ->
      exists r',
        CapabilityRegistry.remove_capability d name r = (r', Ok true)
        /\ CapabilityRegistry.get_capability name r' = Raise CapabilityError
        /\ ~ In name (dict_keys (CapabilityRegistry.list_capabilities r'))
        /\ forall other,
             other <> name ->
             CapabilityRegistry.get_capability other r'
             = CapabilityRegistry.get_capability other r).
Proof.
  intros Hnd. rewrite remove_capability_cases. split.
  - now intros ->.
  - intros -> ->. cbv zeta. eexists. split; [reflexivity|].
    split; [|split].
    + unfold CapabilityRegistry.get_capability. simpl.
      now rewrite (dict_get_del_same name _ Hnd).
    + rewrite list_capabilities_keys. simpl.
      rewrite (dict_keys_del name _ name Hnd). tauto.
    + intros other Hne. unfold CapabilityRegistry.get_capability. simpl.
      now rewrite (dict_get_del_other name other _ Hne).
Qed.

Lemma remove_capability_outcome_witness :
  CapabilityRegistry.remove_capability Scenario.healthy "missing"
    Scenario.two_capabilities
  = (Scenario.two_capabilities, Ok false).
Proof.
  assert (Hnd : NoDup (dict_keys (CapabilityRegistry.capabilities
                                    Scenario.two_capabilities))).
  { repeat constructor; simpl; intuition discriminate. }
  exact (proj1 (remove_capability_outcome Scenario.healthy "missing"
                  Scenario.two_capabilities Hnd) eq_refl).
Defined.

(** X10. [remove_capability] has no rollback either. When the name is in
    the catalog and the write of the catalog fails, the call raises
    [CapabilityError], yet the entry is gone from the catalog in memory:
    [get_capability] of the name raises, the listing has no entry for it,
    and every other name is found as before. A second call for the same
    name returns [False] without writing, so the removal never reaches
    the disk. The data directory is as before when the write was refused;
    when the write broke off, it holds the target file cut short, and
    [load_performance_data] raises from then on. *)
Theorem remove_capability_failed_write
    (d : CapabilityRegistry.disk) (name : string)
    (r : CapabilityRegistry.registry) :
  NoDup (dict_keys (CapabilityRegistry.capabilities r)) ->
  dict_mem name (CapabilityRegistry.capabilities r) = true ->
  CapabilityRegistry.disk_ok d = false ->
  exists r',
    CapabilityRegistry.remove_capability d name r
    = (r', Raise CapabilityError)
    /\ CapabilityRegistry.get_capability name r' = Raise CapabilityError
    /\ ~ In name (dict_keys (CapabilityRegistry.list_capabilities r'))
    /\ (forall other,
          other <> name ->
          CapabilityRegistry.get_capability other r'
          = CapabilityRegistry.get_capability other r)
    /\ (forall d',
          CapabilityRegistry.remove_capability d' name r' = (r', Ok false))
    /\ ((DataPersistence.outcome (CapabilityRegistry.write d)
          = DataPersistence.Refused
          /\ CapabilityRegistry.data_dir r' = CapabilityRegistry.data_dir r)
        \/ (DataPersistence.outcome (CapabilityRegistry.write d)
             = DataPersistence.Torn
             /\ CapabilityRegistry.data_dir r'
                = DataPersistence.put_file
                    (DataPersistence.place (CapabilityRegistry.write d))
                    ("performance_" ++ CapabilityRegistry.stamp d ++ ".json")
                    None (CapabilityRegistry.data_dir r)
             /\ forall readable,
                  DataPersistence.load_performance_data readable
                    (CapabilityRegistry.data_dir r')
                  = Raise DataPersistenceError)).
Proof.
  intros Hnd Hin Hd. rewrite remove_capability_cases, Hin. cbv zeta.
  rewrite Hd. eexists. split; [reflexivity|].
  split; [|split; [|split; [|split]]].
  - unfold CapabilityRegistry.get_capability. simpl.
    now rewrite (dict_get_del_same name _ Hnd).
  - rewrite list_capabilities_keys. simpl.
    rewrite (dict_keys_del name _ name Hnd). tauto.
  - intros other Hne. unfold CapabilityRegistry.get_capability. simpl.
    now rewrite (dict_get_del_other name other _ Hne).
  - intros d'. rewrite remove_capability_cases. simpl.
    unfold dict_mem. now rewrite (dict_get_del_same name _ Hnd).
  - unfold CapabilityRegistry.disk_ok in Hd.
    unfold DataPersistence.save_performance_data,
      DataPersistence.write_attempt.
    destruct (DataPersistence.outcome (CapabilityRegistry.write d));
      [discriminate | left; split; reflexivity | right].
    split; [reflexivity|]. split; [reflexivity|].
    intros readable. cbn [fst CapabilityRegistry.data_dir
                            CapabilityRegistry.with_data_dir].
    unfold DataPersistence.load_performance_data.
    destruct readable; [|reflexivity].
    cbn [DataPersistence.ensure_data_directory bind].
    match goal with
    | |- context [DataPersistence.load_performance_files ?fs []] =>
        pose proof (load_performance_files_bad_file fs
                      ("performance_" ++ CapabilityRegistry.stamp d ++ ".json")
                      None
                      (put_file_In _ _ _ _)
                      (saved_file_is_performance_file _)
                      (or_introl eq_refl) []) as H;
        destruct (DataPersistence.load_performance_files fs []);
        [discriminate H | reflexivity]
    end.
Qed.

Lemma remove_capability_failed_write_witness :
  exists r',
    CapabilityRegistry.remove_capability Cases.torn "basic.fail_always"
      Scenario.two_capabilities
    = (r', Raise CapabilityError)
    /\ CapabilityRegistry.get_capability "basic.fail_always" r'
       = Raise CapabilityError
    /\ CapabilityRegistry.get_capability "basic.greet" r'
       = CapabilityRegistry.get_capability "basic.greet"
           Scenario.two_capabilities
    /\ CapabilityRegistry.data_dir r'
       = [("performance_20240101_000002.json", None)].
Proof.
  assert (Hnd : NoDup (dict_keys (CapabilityRegistry.capabilities
                                    Scenario.two_capabilities))).
  { repeat constructor; simpl; intuition discriminate. }
  destruct (remove_capability_failed_write Cases.torn "basic.fail_always"
              Scenario.two_capabilities Hnd eq_refl eq_refl)
    as (r' & Hcall & Hget & _ & Hothers & _ & Hdir).
  exists r'. split; [exact Hcall|]. split; [exact Hget|].
  split; [apply Hothers; discriminate|].
  destruct Hdir as [[Hout _]|(_ & Hdir & _)]; [discriminate Hout|].
  exact Hdir.
Defined.

(** X11. After an [add_capability] that returned, [get_capability] of the
    name gives the description passed in and the handle the loader holds
    under that name, and every other name is found as before. *)
Theorem add_capability_then_get
    (d : CapabilityRegistry.disk) (name description : string)
    (r r' : CapabilityRegistry.registry) :
  CapabilityRegistry.add_capability d name description r = (r', Ok tt) ->
  (exists f,
      CapabilityLoader.get_capability
        (CapabilityRegistry.capability_loader r) name = Ok f
      /\ CapabilityRegistry.get_capability name r'
         = Ok (CapabilityRegistry.mkCapability (VStr description) f))
  /\ (forall other,
        other <> name ->
        CapabilityRegistry.get_capability other r'
        = CapabilityRegistry.get_capability other r).
Proof.
  rewrite add_capability_cases.
  destruct (str_not (strip name)); [discriminate|].
  destruct (dict_mem name (CapabilityRegistry.capabilities r));
    [discriminate|].
  destruct (CapabilityLoader.get_capability _ name) as [f|]; [|discriminate].
  cbv zeta. destruct (CapabilityRegistry.disk_ok d); [|discriminate].
  intros E. injection E as <-. split.
  - exists f. split; [reflexivity|].
    unfold CapabilityRegistry.get_capability. simpl.
    now rewrite dict_get_set_same.
  - intros other Hne. unfold CapabilityRegistry.get_capability. simpl.
    now rewrite (dict_get_set_other name other _ _ Hne).
Qed.

Lemma add_capability_then_get_witness :
  exists f,
    CapabilityLoader.get_capability Scenario.loader "basic.greet" = Ok f
    /\ CapabilityRegistry.get_capability "basic.greet"
         (fst (CapabilityRegistry.add_capability Scenario.healthy
                 "basic.greet" "greets" Scenario.empty_registry))
       = Ok (CapabilityRegistry.mkCapability (VStr "greets") f).
Proof.
  exact (proj1 (add_capability_then_get Scenario.healthy "basic.greet"
                  "greets" Scenario.empty_registry _ eq_refl)).
Defined.

(** X12. For a catalog that holds each name once, [list_capabilities] is
    the catalog in its insertion order with each entry cut down to name and
    description: the order in which a cycle visits the capabilities is the
    order in which they were added. *)
Theorem list_capabilities_in_insertion_order
    (r : CapabilityRegistry.registry) :
  NoDup (dict_keys (CapabilityRegistry.capabilities r)) ->
  CapabilityRegistry.list_capabilities r
  = map Listing.listed (CapabilityRegistry.capabilities r).
Proof.
  intros Hnd. unfold CapabilityRegistry.list_capabilities.
  now rewrite comprehension_in_order.
Qed.

Lemma list_capabilities_in_insertion_order_witness :
  CapabilityRegistry.list_capabilities Scenario.two_capabilities
  = [("basic.greet", VStr "greets"); ("basic.fail_always", VStr "fails")].
Proof.
  apply (list_capabilities_in_insertion_order Scenario.two_capabilities).
  repeat constructor; simpl; intuition discriminate.
Defined.

(** X13. The loop of [_load_capabilities] rebuilds a catalog from its
    records when each record is an entry of its own: for a catalog that
    holds each name once and whose handles are the loader's, loading the
    list of its records into an empty catalog gives the catalog back, in
    order. *)
Theorem load_entries_rebuilds_catalog
    (loader : dict CapabilityLoader.handle)
    (caps : dict CapabilityRegistry.capability) :
  NoDup (dict_keys caps) ->
  (forall n c,
      In (n, c) caps ->
      dict_get n loader = Some (CapabilityRegistry.function c)) ->
  CapabilityRegistry.load_entries loader
    (map CapabilityRegistry.record_of caps) []
  = Ok caps.
Proof.
  intros Hnd Hloader.
  now rewrite (load_entries_records loader caps [] Hnd Hloader).
Qed.

Lemma load_entries_rebuilds_catalog_witness :
  CapabilityRegistry.load_entries Scenario.loader
    (map CapabilityRegistry.record_of
         (CapabilityRegistry.capabilities Scenario.two_capabilities)) []
  = Ok (CapabilityRegistry.capabilities Scenario.two_capabilities).
Proof.
  apply (load_entries_rebuilds_catalog Scenario.loader).
  - repeat constructor; simpl; intuition discriminate.
  - intros n c [E|[E|[]]]; injection E as <- <-; reflexivity.
Defined.

(** X14. A persisted capability record whose name the loader does not
    hold makes the loop of [_load_capabilities] raise, wherever the record
    stands among the stored entries: the registry is not constructed. *)
Theorem load_entries_fails_on_unknown_name
    (loader : dict CapabilityLoader.handle) (stored_data : list value)
    (n : string) (c : CapabilityRegistry.capability)
    (caps : dict CapabilityRegistry.capability) :
  In (CapabilityRegistry.record_of (n, c)) stored_data ->
  dict_get n loader = None ->
  is_ok (CapabilityRegistry.load_entries loader stored_data caps) = false.
Proof. intros Hin Hn. now apply (load_entries_unknown loader stored_data n c). Qed.

Lemma load_entries_fails_on_unknown_name_witness :
  is_ok (CapabilityRegistry.load_entries Scenario.loader
           [CapabilityRegistry.record_of
              ("basic.greet", CapabilityRegistry.mkCapability (VStr "greets") 1);
            CapabilityRegistry.record_of
              ("gone.renamed", CapabilityRegistry.mkCapability (VStr "old") 3)]
           [])
  = false.
Proof.
  apply (load_entries_fails_on_unknown_name Scenario.loader _ "gone.renamed"
           (CapabilityRegistry.mkCapability (VStr "old") 3)).
  - simpl. auto.
  - reflexivity.
Defined.

(** X15. [add_capability] rejects a name made of whitespace only, the
    empty name among them, with [CapabilityError] and without touching the
    registry, whatever the loader and the disk. *)
Theorem add_capability_rejects_blank_name
    (d : CapabilityRegistry.disk) (name description : string)
    (r : CapabilityRegistry.registry) :
  forallb isspace (list_ascii_of_string name) = true ->
  CapabilityRegistry.add_capability d name description r
  = (r, Raise CapabilityError).
Proof.
  intros Hblank. rewrite add_capability_cases.
  now rewrite (strip_blank name Hblank).
Qed.

Lemma add_capability_rejects_blank_name_witness :
  CapabilityRegistry.add_capability Scenario.healthy "  " "spaces"
    Scenario.empty_registry
  = (Scenario.empty_registry, Raise CapabilityError).
Proof.
  exact (add_capability_rejects_blank_name Scenario.healthy "  " "spaces"
           Scenario.empty_registry eq_refl).
Defined.

(** X16. The registry's [execute_capability] returns a value exactly when
    the catalog holds the name and the call of its function returns that
    value; a missing name and every exception of the function come out as
    [CapabilityError]. *)
Theorem registry_execute_capability_outcome
    (invoke : CapabilityLoader.handle -> result value) (name : string)
    (r : CapabilityRegistry.registry) :
  (forall v,
      CapabilityRegistry.execute_capability invoke name r = Ok v
      <-> exists c,
            dict_get name (CapabilityRegistry.capabilities r) = Some c
            /\ invoke (CapabilityRegistry.function c) = Ok v)
  /\ (forall e,
        CapabilityRegistry.execute_capability invoke name r = Raise e ->
        e = CapabilityError).
Proof.
  unfold CapabilityRegistry.execute_capability,
    CapabilityRegistry.get_capability.
  destruct (dict_get name (CapabilityRegistry.capabilities r)) as [c|];
    cbn [reraise_as bind].
  - split.
    + intros v. split.
      * intros H. exists c. split; [reflexivity|].
        destruct (invoke (CapabilityRegistry.function c)); [exact H|].
        discriminate.
      * intros (c' & E & Hv). injection E as <-. now rewrite Hv.
    + intros e. destruct (invoke (CapabilityRegistry.function c));
        [discriminate|]. intros E. now injection E as <-.
  - split.
    + intros v. split; [discriminate | intros (c & E & _); discriminate].
    + intros e E. now injection E as <-.
Qed.

(** ** Self-reflection: the project analysis *)

Section MoreReflection.
Import SelfReflection ProjectAnalysis.

Lemma dict_set_found_keys (k : string) (v v' : nat) (d : dict nat) :
  dict_get k d = Some v -> dict_keys (dict_set k v' d) = dict_keys d.
Proof.
  induction d as [|[k0 v0] d IH]; simpl; [discriminate|].
  destruct (String.eqb_spec k k0) as [->|Hne]; simpl; [reflexivity|].
  intros H. now rewrite IH.
Qed.

Lemma dict_set_found_sum (k : string) (v : nat) (d : dict nat) :
  dict_get k d = Some v ->
  list_sum (map snd (dict_set k (S v) d)) = S (list_sum (map snd d)).
Proof.
  revert v. induction d as [|[k0 v0] d IH]; intros v; simpl; [discriminate|].
  destruct (String.eqb_spec k k0) as [->|Hne]; simpl.
  - intros E. now injection E as ->.
  - intros H. rewrite (IH v H). lia.
Qed.

(** What the loop of the analysis has done when it ends normally. *)
Lemma analyze_project_logs_totals (progress : float) (logs : list project_log) :
  forall distribution progress_over_time token_usage total
         distribution' progress_over_time' token_usage' total',
    analyze_project_logs progress logs
      (distribution, progress_over_time, token_usage, total)
    = Ok (distribution', progress_over_time', token_usage', total') ->
    dict_keys distribution' = dict_keys distribution
    /\ list_sum (map snd distribution')
       = (list_sum (map snd distribution) + List.length logs)%nat
    /\ List.length progress_over_time'
       = (List.length progress_over_time + List.length logs)%nat
    /\ List.length token_usage'
       = (List.length token_usage + List.length logs)%nat
    /\ total' = (total + tokens_of logs)%Z.
Proof.
  induction logs as [|log logs IH];
    intros dist prog tok total dist' prog' tok' total' H.
  - simpl in H. injection H as <- <- <- <-. simpl.
    repeat split; lia.
  - cbn [analyze_project_logs] in H.
    destruct (dict_get _ dist) as [count|] eqn:Hget; [|discriminate].
    destruct (log_timestamp log) as [t|]; [|discriminate].
    apply IH in H. destruct H as (Hk & Hs & Hp & Ht & Htot).
    rewrite (dict_set_found_keys _ _ _ _ Hget) in Hk.
    rewrite (dict_set_found_sum _ _ _ Hget) in Hs.
    rewrite length_app in Hp, Ht. simpl in Hp, Ht.
    repeat split; [exact Hk | simpl; lia | simpl; lia | simpl; lia |].
    rewrite Htot. simpl. unfold get_int. lia.
Qed.

Lemma known_key (p : string) (d : dict nat) :
  dict_keys d = ["High"; "Medium"; "Low"] ->
  (dict_get p d <> None
   <-> String.eqb p "High" || String.eqb p "Medium" || String.eqb p "Low"
       = true).
Proof.
  intros Hk. rewrite dict_get_In, Hk. simpl.
  destruct (String.eqb_spec p "High"), (String.eqb_spec p "Medium"),
    (String.eqb_spec p "Low"); simpl; intuition congruence.
Qed.

(** The loop ends normally exactly on logs it can read, and raises
    [KeyError] otherwise. *)
Lemma analyze_project_logs_outcome (progress : float)
      (logs : list project_log) :
  forall distribution progress_over_time token_usage total,
    dict_keys distribution = ["High"; "Medium"; "Low"] ->
    if forallb analysable logs
    then is_ok (analyze_project_logs progress logs
                  (distribution, progress_over_time, token_usage, total))
         = true
    else analyze_project_logs progress logs
           (distribution, progress_over_time, token_usage, total)
         = Raise KeyError.
Proof.
  induction logs as [|log logs IH]; intros dist prog tok total Hk;
    [reflexivity|].
  cbn [forallb analyze_project_logs]. unfold analysable at 1.
  pose proof (known_key
                (match priority log with Some p => p | None => "Medium" end)
                dist Hk) as Hknown.
  destruct (dict_get _ dist) as [count|] eqn:Hget.
  - assert (Hp : match priority log with
                 | None => true
                 | Some p => String.eqb p "High" || String.eqb p "Medium"
                             || String.eqb p "Low"
                 end = true).
    { destruct (priority log); [|reflexivity].
      apply Hknown. discriminate. }
    rewrite Hp. cbn [andb].
    destruct (log_timestamp log) as [t|]; [|reflexivity].
    apply IH. now rewrite (dict_set_found_keys _ _ _ _ Hget).
  - assert (Hp : match priority log with
                 | None => true
                 | Some p => String.eqb p "High" || String.eqb p "Medium"
                             || String.eqb p "Low"
                 end = false).
    { destruct (priority log) as [p|].
      - destruct (_ || _) eqn:E; [|reflexivity].
        exfalso. now apply Hknown.
      - exfalso. apply (proj2 Hknown); [reflexivity | reflexivity]. }
    rewrite Hp. reflexivity.
Qed.
End MoreReflection.

(** X17. When [analyze_project_management_performance] returns on a
    non-empty log list, its figures add up: [total_tasks] is the number of
    logs, [completed_tasks] does not exceed it, the three counts of the
    priority distribution sum to it, the two series have one point per
    log, and [total_tokens_used] is the sum of the logs' tokens. *)
Theorem project_analysis_adds_up
    (s : SelfReflection.reflection) (a : SelfReflection.project_analysis) :
  SelfReflection.project_management_logs s <> [] ->
  SelfReflection.analyze_project_management_performance s = Ok a ->
  let n := List.length (SelfReflection.project_management_logs s) in
  SelfReflection.pm_message a = None
  /\ SelfReflection.pm_total_tasks a = Some n
  /\ (exists completed,
        SelfReflection.completed_tasks a = Some completed /\ completed <= n)
  /\ (exists distribution,
        SelfReflection.priority_distribution a = Some distribution
        /\ dict_keys distribution = ["High"; "Medium"; "Low"]
        /\ list_sum (map snd distribution) = n)
  /\ (exists series,
        SelfReflection.progress_over_time a = Some series
        /\ List.length series = n)
  /\ (exists series,
        SelfReflection.token_usage_over_time a = Some series
        /\ List.length series = n)
  /\ SelfReflection.total_tokens_used a
     = Some (ProjectAnalysis.tokens_of
               (SelfReflection.project_management_logs s)).
Proof.
  intros Hne Ha n. subst n.
  unfold SelfReflection.analyze_project_management_performance in Ha.
  destruct (SelfReflection.project_management_logs s) as [|log logs] eqn:El;
    [congruence|].
  destruct (SelfReflection.analyze_project_logs _ _ _)
    as [[[[dist prog] tok] total]|] eqn:Hloop; [|discriminate].
  cbn [bind] in Ha. injection Ha as <-.
  apply analyze_project_logs_totals in Hloop.
  destruct Hloop as (Hk & Hs & Hp & Ht & Htot).
  cbn [SelfReflection.pm_message SelfReflection.pm_total_tasks
       SelfReflection.completed_tasks SelfReflection.priority_distribution
       SelfReflection.progress_over_time SelfReflection.token_usage_over_time
       SelfReflection.total_tokens_used].
  split; [reflexivity|]. split; [reflexivity|].
  split;
    [eexists; split;
     [reflexivity
     | exact (filter_length_le SelfReflection.is_complete_task (log :: logs))]|].
  split; [exists dist; repeat split; [exact Hk | exact Hs]|].
  split; [exists prog; split; [reflexivity | exact Hp]|].
  split; [exists tok; split; [reflexivity | exact Ht]|].
  now rewrite Htot.
Qed.

Lemma project_analysis_adds_up_witness :
  exists distribution,
    SelfReflection.priority_distribution
      (match SelfReflection.analyze_project_management_performance
               (SelfReflection.mkReflection [] Cases.sound_project_logs) with
       | Ok a => a
       | Raise _ =>
           SelfReflection.mkProjectAnalysis None None None None None None
             None None
       end)
    = Some distribution
    /\ dict_keys distribution = ["High"; "Medium"; "Low"]
    /\ list_sum (map snd distribution) = 3.
Proof.
  assert (Hne : SelfReflection.project_management_logs
                  (SelfReflection.mkReflection [] Cases.sound_project_logs)
                <> []) by discriminate.
  exact (proj1 (proj2 (proj2 (proj2
           (project_analysis_adds_up
              (SelfReflection.mkReflection [] Cases.sound_project_logs) _
              Hne eq_refl))))).
Defined.

(** X18. [analyze_project_management_performance] returns exactly when
    every log can be read: its priority, when it has one, is High, Medium
    or Low, and it has a timestamp. One log with another priority or
    without a timestamp makes the analysis, and with it
    [suggest_improvements], raise [KeyError]. *)
Theorem project_analysis_needs_readable_logs
    (s : SelfReflection.reflection) :
  if forallb ProjectAnalysis.analysable
       (SelfReflection.project_management_logs s)
  then is_ok (SelfReflection.analyze_project_management_performance s) = true
       /\ is_ok (SelfReflection.suggest_improvements s) = true
  else SelfReflection.analyze_project_management_performance s
       = Raise KeyError
       /\ SelfReflection.suggest_improvements s = Raise KeyError.
Proof.
  unfold SelfReflection.suggest_improvements,
    SelfReflection.analyze_project_management_performance.
  destruct (SelfReflection.project_management_logs s) as [|log logs] eqn:El.
  - split; reflexivity.
  - cbv zeta.
    match goal with
    | |- context [SelfReflection.analyze_project_logs ?p _ _] =>
        pose proof (analyze_project_logs_outcome p (log :: logs)
                      [("High", 0); ("Medium", 0); ("Low", 0)] [] [] 0%Z
                      eq_refl) as H
    end.
    destruct (forallb ProjectAnalysis.analysable (log :: logs)).
    + destruct (SelfReflection.analyze_project_logs _ _ _)
        as [[[[dist prog] tok] total]|]; [|discriminate].
      split; reflexivity.
    + destruct (SelfReflection.analyze_project_logs _ _ _) as [acc|e];
        [discriminate H|].
      injection H as ->. split; reflexivity.
Qed.

Section ManagerLogs.
Import SelfReflection ProjectAnalysis.

Lemma tokens_of_app (l l' : list project_log) :
  tokens_of (l ++ l')%list = (tokens_of l + tokens_of l')%Z.
Proof.
  induction l as [|log l IH]; simpl; [reflexivity|]. rewrite IH. lia.
Qed.

(** The manager's running total is the sum over its logs, and each call
    adds one log. *)
Lemma after_actions_account (calls : list action_call) :
  forall m,
    ProjectManager.total_tokens_used m
    = tokens_of (map ProjectManager.as_project_log
                     (ProjectManager.project_logs m)) ->
    ProjectManager.total_tokens_used (after_actions calls m)
    = tokens_of (map ProjectManager.as_project_log
                     (ProjectManager.project_logs (after_actions calls m)))
    /\ List.length (ProjectManager.project_logs (after_actions calls m))
       = (List.length (ProjectManager.project_logs m) + List.length calls)%nat.
Proof.
  unfold after_actions.
  induction calls as [|[[[now action] description] success] calls IH];
    intros m Hm.
  - simpl. split; [exact Hm | lia].
  - cbn [fold_left].
    destruct (IH (ProjectManager.log_action now action description success m))
      as [Ht Hl].
    + unfold ProjectManager.log_action. cbn.
      rewrite map_app, tokens_of_app, <- Hm. cbn. unfold get_int. lia.
    + split; [exact Ht|]. rewrite Hl.
      unfold ProjectManager.log_action. cbn. rewrite length_app. simpl. lia.
Qed.

(** Logs without a priority all go to Medium. *)
Lemma analyze_manager_logs (progress : float)
      (entries : list ProjectManager.log_entry) :
  forall medium progress_over_time token_usage total
         distribution' progress_over_time' token_usage' total',
    analyze_project_logs progress
      (map ProjectManager.as_project_log entries)
      ([("High", 0); ("Medium", medium); ("Low", 0)],
       progress_over_time, token_usage, total)
    = Ok (distribution', progress_over_time', token_usage', total') ->
    distribution'
    = [("High", 0); ("Medium", (medium + List.length entries)%nat); ("Low", 0)].
Proof.
  induction entries as [|e entries IH];
    intros medium prog tok total dist' prog' tok' total' H.
  - simpl in H. injection H as <- _ _ _. simpl. now rewrite Nat.add_0_r.
  - cbn in H. apply IH in H. rewrite H. simpl.
    now rewrite Nat.add_succ_r.
Qed.
End ManagerLogs.

(** X19. The logs that the project manager's [log_action] writes carry no
    priority. Passed to the analysis they are always readable, every one
    of them is counted under Medium, and the analysis reports as
    [total_tokens_used] the very total the manager has kept. *)
Theorem manager_logs_are_all_medium
    (calls : list ProjectAnalysis.action_call)
    (performance : list SelfReflection.log_entry)
    (a : SelfReflection.project_analysis) :
  calls <> [] ->
  let m := ProjectAnalysis.after_actions calls
             (ProjectManager.mkManager [] 0) in
  SelfReflection.analyze_project_management_performance
    (SelfReflection.mkReflection performance
       (map ProjectManager.as_project_log (ProjectManager.get_project_logs m)))
  = Ok a ->
  SelfReflection.priority_distribution a
  = Some [("High", 0); ("Medium", List.length calls); ("Low", 0)]
  /\ SelfReflection.total_tokens_used a
     = Some (ProjectManager.total_tokens_used m).
Proof.
  intros Hcalls m Ha.
  destruct (after_actions_account calls (ProjectManager.mkManager [] 0)
              eq_refl) as [Htokens Hlength].
  fold m in Htokens, Hlength. simpl in Hlength.
  unfold ProjectManager.get_project_logs in Ha.
  unfold SelfReflection.analyze_project_management_performance in Ha.
  cbn [SelfReflection.project_management_logs] in Ha.
  destruct (ProjectManager.project_logs m) as [|e entries] eqn:El.
  - destruct calls; [congruence | discriminate].
  - change (map ProjectManager.as_project_log (e :: entries))
      with (ProjectManager.as_project_log e
            :: map ProjectManager.as_project_log entries) in Ha.
    cbv beta iota zeta in Ha.
    destruct (SelfReflection.analyze_project_logs _ _ _)
      as [[[[dist prog] tok] total]|] eqn:Hloop; [|discriminate].
    cbn [bind] in Ha. injection Ha as <-.
    cbn [SelfReflection.priority_distribution
         SelfReflection.total_tokens_used].
    pose proof (analyze_project_logs_totals _ _ _ _ _ _ _ _ _ _ Hloop)
      as (_ & _ & _ & _ & Htot).
    change (ProjectManager.as_project_log e
            :: map ProjectManager.as_project_log entries)
      with (map ProjectManager.as_project_log (e :: entries)) in Hloop.
    apply analyze_manager_logs in Hloop.
    split.
    + rewrite Hloop, Hlength. reflexivity.
    + rewrite Htot, Htokens. reflexivity.
Qed.

Lemma manager_logs_are_all_medium_witness :
  SelfReflection.priority_distribution
    (match SelfReflection.analyze_project_management_performance
             (SelfReflection.mkReflection []
                (map ProjectManager.as_project_log
                     (ProjectManager.get_project_logs
                        Cases.manager_after_two_actions))) with
     | Ok a => a
     | Raise _ =>
         SelfReflection.mkProjectAnalysis None None None None None None
           None None
     end)
  = Some [("High", 0); ("Medium", 2); ("Low", 0)].
Proof.
  exact (proj1 (manager_logs_are_all_medium
                  [(1%Z, "assign_task", "Assigned task: Task 1", true);
                   (2%Z, "complete_task", "Completed task: Task 1", true)]
                  [] _ ltac:(discriminate) eq_refl)).
Defined.

(** ** The core: recorded results, reflection, dispatch *)

Section MoreCore.
Import AICore.
Variable handlers : call -> result unit.





End MoreCore.

(** X20. [update_performance_data] appends: afterwards the capability's
    list is the list it had, or the empty list if it had none, with the
    task result at its end; the list of every other capability is what it
    was. *)
Theorem update_performance_data_appends
    (capability : string) (t : AICore.task_result) (c : AICore.core) :
  dict_get capability
    (AICore.performance_data (AICore.update_performance_data capability t c))
  = Some (match dict_get capability (AICore.performance_data c) with
          | Some l => l
          | None => []
          end ++ [t])%list
  /\ forall other,
       other <> capability ->
       dict_get other
         (AICore.performance_data
            (AICore.update_performance_data capability t c))
       = dict_get other (AICore.performance_data c).
Proof.
  unfold AICore.update_performance_data, dict_mem. simpl.
  destruct (dict_get capability (AICore.performance_data c)) as [l|] eqn:E.
  - rewrite E. split; [apply dict_get_set_same|].
    intros other Hne. now apply dict_get_set_other.
  - rewrite dict_get_set_same. split.
    + now rewrite dict_get_set_same.
    + intros other Hne. rewrite !dict_get_set_other by exact Hne.
      reflexivity.
Qed.

(** X21. The analysis of [self_reflection.py] has none of the keys that
    [act_on_insights] looks for, so a reflection pass of the core never
    invokes a handler, whatever the history holds and whatever the
    handlers are. *)
Theorem perform_self_reflection_invokes_nothing
    (handlers : AICore.call -> result unit) (c : AICore.core) :
  AICore.perform_self_reflection handlers c = ([], c).
Proof.
  unfold AICore.perform_self_reflection,
    SelfReflection.analyze_performance.
  destruct (SelfReflection.performance_logs (AICore.self_reflection c));
    reflexivity.
Qed.


(** X23. The core's [execute_capability] never raises. It reads the clock
    twice and touches nothing else of the core; the result it reports is
    the value the capability returned, and [None] when the registry call
    failed: the name is not in the catalog or the capability raised. *)
Theorem core_execute_capability_outcome
    (invoke : CapabilityLoader.handle -> result value) (clock : nat -> Z)
    (name : string) (c : AICore.core) :
  let t := fst (AICore.execute_capability invoke clock name c) in
  let c' := snd (AICore.execute_capability invoke clock name c) in
  AICore.category t = "capability_execution"
  /\ AICore.elapsed t
     = float_of_Z (clock (S (AICore.clock_reads c))
                   - clock (AICore.clock_reads c))
  /\ match dict_get name
             (CapabilityRegistry.capabilities (AICore.capability_registry c))
     with
     | None => AICore.result_value t = VNone
     | Some capability =>
         match invoke (CapabilityRegistry.function capability) with
         | Ok v => AICore.result_value t = v
         | Raise _ => AICore.result_value t = VNone
         end
     end
  /\ c' = AICore.mkCore (AICore.capability_registry c)
            (AICore.self_reflection c) (AICore.running c)
            (AICore.performance_data c) (S (S (AICore.clock_reads c))).
Proof.
  cbv zeta. unfold AICore.execute_capability. cbn.
  unfold CapabilityRegistry.execute_capability,
    CapabilityRegistry.get_capability.
  repeat split.
  destruct (dict_get name _) as [capability|]; cbn; [|reflexivity].
  now destruct (invoke (CapabilityRegistry.function capability)).
Qed.

Section TokenTotal.
Import SelfReflection ProjectAnalysis.

(** Whatever the analysis returns, the total it reports, or the default
    for the total it does not report, is the sum over the logs. *)
Lemma analysis_total_tokens (s : reflection) (a : project_analysis) :
  analyze_project_management_performance s = Ok a ->
  get_int (total_tokens_used a) = tokens_of (project_management_logs s).
Proof.
  unfold analyze_project_management_performance.
  destruct (project_management_logs s) as [|log logs].
  - intros E. injection E as <-. reflexivity.
  - destruct (analyze_project_logs _ _ _)
      as [[[[dist prog] tok] total]|] eqn:Hloop; [|discriminate].
    cbn [bind]. intros E. injection E as <-.
    apply analyze_project_logs_totals in Hloop.
    destruct Hloop as (_ & _ & _ & _ & Htot).
    cbn [total_tokens_used get_int]. rewrite Htot. lia.
Qed.
End TokenTotal.

(** X24. When [suggest_improvements] returns, the suggestion to reduce
    token usage is among its answers exactly when the tokens of the
    project logs sum to more than 10000. *)
Theorem token_suggestion_iff_over_limit
    (s : SelfReflection.reflection) (suggestions : list string) :
  SelfReflection.suggest_improvements s = Ok suggestions ->
  (In "Look into reducing token usage for more efficient operations."
      suggestions
   <-> (10000 < ProjectAnalysis.tokens_of
                  (SelfReflection.project_management_logs s))%Z).
Proof.
  unfold SelfReflection.suggest_improvements.
  destruct (SelfReflection.analyze_project_management_performance s)
    as [a|] eqn:Ha; [|discriminate].
  cbn [bind].
  rewrite (analysis_total_tokens s a Ha).
  destruct (Z.ltb_spec 10000
              (ProjectAnalysis.tokens_of
                 (SelfReflection.project_management_logs s))) as [Hlt|Hge];
    destruct (PrimFloat.ltb 1 _); destruct (PrimFloat.ltb _ 0.8);
    intros E; injection E as <-; simpl;
    split; intros H; try lia; try tauto;
    repeat (destruct H as [H|H]; try discriminate H); try contradiction.
Qed.

Lemma token_suggestion_iff_over_limit_witness :
  ~ In "Look into reducing token usage for more efficient operations."
       ["Improve task completion rate in project management."].
Proof.
  intros Hin.
  pose proof (proj1 (token_suggestion_iff_over_limit
                       (SelfReflection.mkReflection []
                          Cases.sound_project_logs)
                       ["Improve task completion rate in project management."]
                       eq_refl) Hin) as H.
  vm_compute in H. discriminate H.
Defined.

(** ** The core loop: how the wait ends *)

Section WaitEnds.
Import AICore.
Variable invoke : CapabilityLoader.handle -> result value.
Variable clock : nat -> Z.
Variable handlers : call -> result unit.

Lemma step_wait_returns (b : bool) (m : machine) (start_time end_time : Z) :
  pc m = WaitLoop start_time end_time ->
  PrimFloat.ltb (get_time_difference start_time end_time) (float_of_Z 60)
  = false ->
  pc (AICore.step invoke clock handlers b m) = LoopTest
  /\ clock_reads (state (AICore.step invoke clock handlers b m))
     = clock_reads (state m).
Proof.
  intros Hpc Hlate. unfold AICore.step. rewrite Hpc, Hlate.
  destruct b; split; reflexivity.
Qed.

Lemma wait_run (k : nat) :
  forall (stops : list bool) (m : machine) (start_time end_time : Z),
    pc m = WaitLoop start_time end_time ->
    PrimFloat.ltb (get_time_difference start_time end_time) (float_of_Z 60)
    = true ->
    (forall i, i < k ->
       PrimFloat.ltb
         (get_time_difference start_time (clock (clock_reads (state m) + i)))
         (float_of_Z 60) = true) ->
    PrimFloat.ltb
      (get_time_difference start_time (clock (clock_reads (state m) + k)))
      (float_of_Z 60) = false ->
    List.length stops = k + 2 ->
    pc (AICore.run invoke clock handlers stops m) = LoopTest
    /\ clock_reads (state (AICore.run invoke clock handlers stops m))
       = clock_reads (state m) + k + 1.
Proof.
  induction k as [|k IH];
    intros stops m s e Hpc Hearly Hbefore Hlate Hlen.
  - destruct stops as [|b1 [|b2 [|b3 stops]]]; try discriminate Hlen.
    unfold AICore.run. cbn [fold_left].
    destruct (step_wait_polls invoke clock handlers b1 m s e Hpc Hearly)
      as [Hpc1 Hreads1].
    rewrite Nat.add_0_r in Hlate.
    destruct (step_wait_returns b2 _ s _ Hpc1 Hlate) as [Hpc2 Hreads2].
    split; [exact Hpc2|]. rewrite Hreads2, Hreads1. lia.
  - destruct stops as [|b stops]; [discriminate Hlen|].
    unfold AICore.run. cbn [fold_left].
    destruct (step_wait_polls invoke clock handlers b m s e Hpc Hearly)
      as [Hpc1 Hreads1].
    fold (AICore.run invoke clock handlers stops
            (AICore.step invoke clock handlers b m)).
    destruct (IH stops (AICore.step invoke clock handlers b m) s
                (clock (clock_reads (state m))) Hpc1) as [Hpc' Hreads'].
    + specialize (Hbefore 0 (Nat.lt_0_succ k)).
      now rewrite Nat.add_0_r in Hbefore.
    + intros i Hi. rewrite Hreads1.
      replace (S (clock_reads (state m)) + i)
        with (clock_reads (state m) + S i) by lia.
      apply Hbefore. lia.
    + rewrite Hreads1.
      replace (S (clock_reads (state m)) + k)
        with (clock_reads (state m) + S k) by lia.
      exact Hlate.
    + simpl in Hlen. lia.
    + split; [exact Hpc'|]. rewrite Hreads', Hreads1. lia.
Qed.
End WaitEnds.

(** X25. The wait ends at the first clock reading that is not less than
    60 seconds after the start reading, and not before: if the reading
    held and the next [k] readings are early and the one after them is
    not, then after [k + 2] steps the thread is back at the loop test,
    having read the clock [k + 1] times, whether or not [stop()] was called
    meanwhile. *)
Theorem wait_ends_at_first_late_reading
    (invoke : CapabilityLoader.handle -> result value) (clock : nat -> Z)
    (handlers : AICore.call -> result unit)
    (k : nat) (stops : list bool) (m : AICore.machine)
    (start_time end_time : Z) :
  AICore.pc m = AICore.WaitLoop start_time end_time ->
  PrimFloat.ltb (AICore.get_time_difference start_time end_time)
                (float_of_Z 60) = true ->
  (forall i, i < k ->
     PrimFloat.ltb
       (AICore.get_time_difference start_time
          (clock (AICore.clock_reads (AICore.state m) + i)))
       (float_of_Z 60) = true) ->
  PrimFloat.ltb
    (AICore.get_time_difference start_time
       (clock (AICore.clock_reads (AICore.state m) + k)))
    (float_of_Z 60) = false ->
  List.length stops = k + 2 ->
  AICore.pc (AICore.run invoke clock handlers stops m) = AICore.LoopTest
  /\ AICore.clock_reads
       (AICore.state (AICore.run invoke clock handlers stops m))
     = AICore.clock_reads (AICore.state m) + k + 1.
Proof. apply wait_run. Qed.

(** The readings 0, 30 are early and 60 is not: the wait takes four steps
    and three readings. *)
Lemma wait_ends_at_first_late_reading_witness :
  AICore.pc (AICore.run Scenario.invoke Cases.half_minute_clock
               AICore.handler [false; true; false; false] Scenario.waiting)
  = AICore.LoopTest
  /\ AICore.clock_reads
       (AICore.state
          (AICore.run Scenario.invoke Cases.half_minute_clock AICore.handler
             [false; true; false; false] Scenario.waiting))
     = 0 + 2 + 1.
Proof.
  apply (wait_ends_at_first_late_reading Scenario.invoke
           Cases.half_minute_clock AICore.handler 2
           [false; true; false; false] Scenario.waiting 0%Z 0%Z).
  - reflexivity.
  - reflexivity.
  - intros [|[|i]] Hi; [reflexivity | reflexivity | lia].
  - reflexivity.
  - reflexivity.
Defined.
